(** * agimus_sot.task.pre_grasp: the pregrasp / preplace task builder

    A shallow embedding of [src/agimus_sot/task/pre_grasp.py].  The class
    [PreGrasp] builds a dynamic-graph: it creates entities, plugs signals,
    registers topics on itself and prints diagnostics.  The embedding keeps
    all of that as explicit state: one record [State] holds the attributes of
    the [PreGrasp] object, the entity graph and the standard output, and every
    method is a computation of the monad [M], in which a raised exception
    keeps the state reached so far (as a Python exception does). *)

From stdpp Require Import gmap strings list fin_maps.
From Stdlib Require Import PrimFloat DecimalString.

Local Open Scope string_scope.
Set Warnings "-inexact-float".

(** ** Collaborators that are not part of this file *)

(** [pinocchio.SE3]: the rigid transforms held by [OpFrame.lMf], with the two
    operations the builder uses, [M.inverse()] and [M1 * M2]. *)
Class Pinocchio := {
  SE3 : Type;
  se3_inverse : SE3 → SE3;
  se3_mul : SE3 → SE3 → SE3;
}.

(** Two string helpers whose text is not in this file: [Task._name], which
    makes an entity-name stem out of its arguments, and
    [agimus_sot.tools.filename_escape]. *)
Class Naming := {
  _name : list string → string;
  filename_escape : string → string;
}.

(** A signal is named by its entity and its own name. *)
Abbreviation Signal := (string * string)%type.

Section PreGrasp.
Context `{Pinocchio} `{Naming}.

(** ** Data *)

(** The attributes of an [OpFrame] that [PreGrasp] reads. *)
Record OpFrame := {
  name : string;
  fullName : string;
  link : string;
  fullLink : string;
  robotName : string;
  lMf : SE3;
  enabled : bool;
  controllable : bool;
}.

(** The attributes of [sotrobot] that [PreGrasp] reads: the name of the entity
    [sotrobot.dynamic], [sotrobot.camera_frame] and the value of
    [sotrobot.dynamic.getDimension()]. *)
Record SotRobot := {
  dynamic : string;
  camera_frame : string;
  getDimension : nat;
}.

(** What a constant input signal holds: [se3ToTuple M], or [np.zeros((r, c))]. *)
Inductive Value :=
  | MatrixHomo (m : SE3)
  | Zeros (rows cols : nat).

(** What feeds an input signal.  Both [plug(out, sin)] and [sin.value = v]
    replace whatever fed [sin] before: assigning a value to a plugged input
    unplugs it. *)
Inductive Source :=
  | Plugged (out : Signal)
  | Constant (v : Value).

Inductive EntityClass :=
  | FeaturePose
  | SotTask
  | SafeGainAdaptive
  | Inverse_of_matrixHomo
  | Multiply_of_matrixHomo
  | IfMatrixHomo.

(** Method calls on entities and on the tracer, in the order they are made. *)
Inductive Call :=
  | setSignalNumber (n : nat)
  | add (featureName : string)
  | computeParameters (a b c d : float)
  | setWithDerivative (b : bool)
  | tracer_add (signalName fileName : string).

(** A topic of [Task.topics]: who provides the pose, and which input signals
    receive it ([(sin, condition)] pairs for the TF listener). *)
Inductive Handler :=
  | hppjoint
  | tf_listener (frame0 frame1 : string).

Inductive Getter :=
  | Sig (sin : Signal)
  | SigCond (sin condition : Signal).

Record Topic := {
  handler : Handler;
  signalGetters : list Getter;
}.

(** The calls of [self.addHppJointTopic], [self.addTfListenerTopic] and
    [self.extendSignalGetters], with their arguments, in the order they are
    made. *)
Inductive Registration :=
  | HppJointTopic (topicName : string) (getters : list Getter)
  | TfListenerTopic (topicName frame0 frame1 : string) (getters : list Getter)
  | SignalGetters (topicName : string) (getter : Signal).

(** An argument of [matrixHomoProduct] and friends: [None], an [SE3] constant
    or an output signal. *)
Inductive Factor :=
  | FNone
  | FPose (m : SE3)
  | FSignal (out : Signal).

(** The attributes that the builders create on [self] on the fly, each bound
    to the name of an entity; [None] is an attribute that was never
    assigned. *)
Record Attrs := {
  feature : option string;
  task : option string;
  gain : option string;
  oMjaDes_inv : option string;
  faMfbDes : option string;
  jbMfb : option string;
  wMog_inv : option string;
  _defaultValue : option string;
}.

Definition no_attrs : Attrs :=
  {| feature := None; task := None; gain := None; oMjaDes_inv := None;
     faMfbDes := None; jbMfb := None; wMog_inv := None;
     _defaultValue := None |}.

Definition set_feature (e : string) (a : Attrs) : Attrs :=
  {| feature := Some e; task := task a; gain := gain a;
     oMjaDes_inv := oMjaDes_inv a; faMfbDes := faMfbDes a; jbMfb := jbMfb a;
     wMog_inv := wMog_inv a; _defaultValue := _defaultValue a |}.

Definition set_task (e : string) (a : Attrs) : Attrs :=
  {| feature := feature a; task := Some e; gain := gain a;
     oMjaDes_inv := oMjaDes_inv a; faMfbDes := faMfbDes a; jbMfb := jbMfb a;
     wMog_inv := wMog_inv a; _defaultValue := _defaultValue a |}.

Definition set_gain (e : string) (a : Attrs) : Attrs :=
  {| feature := feature a; task := task a; gain := Some e;
     oMjaDes_inv := oMjaDes_inv a; faMfbDes := faMfbDes a; jbMfb := jbMfb a;
     wMog_inv := wMog_inv a; _defaultValue := _defaultValue a |}.

Definition set_oMjaDes_inv (e : string) (a : Attrs) : Attrs :=
  {| feature := feature a; task := task a; gain := gain a;
     oMjaDes_inv := Some e; faMfbDes := faMfbDes a; jbMfb := jbMfb a;
     wMog_inv := wMog_inv a; _defaultValue := _defaultValue a |}.

Definition set_faMfbDes (e : string) (a : Attrs) : Attrs :=
  {| feature := feature a; task := task a; gain := gain a;
     oMjaDes_inv := oMjaDes_inv a; faMfbDes := Some e; jbMfb := jbMfb a;
     wMog_inv := wMog_inv a; _defaultValue := _defaultValue a |}.

Definition set_jbMfb (e : string) (a : Attrs) : Attrs :=
  {| feature := feature a; task := task a; gain := gain a;
     oMjaDes_inv := oMjaDes_inv a; faMfbDes := faMfbDes a; jbMfb := Some e;
     wMog_inv := wMog_inv a; _defaultValue := _defaultValue a |}.

Definition set_wMog_inv (e : string) (a : Attrs) : Attrs :=
  {| feature := feature a; task := task a; gain := gain a;
     oMjaDes_inv := oMjaDes_inv a; faMfbDes := faMfbDes a; jbMfb := jbMfb a;
     wMog_inv := Some e; _defaultValue := _defaultValue a |}.

Definition set__defaultValue (e : string) (a : Attrs) : Attrs :=
  {| feature := feature a; task := task a; gain := gain a;
     oMjaDes_inv := oMjaDes_inv a; faMfbDes := faMfbDes a; jbMfb := jbMfb a;
     wMog_inv := wMog_inv a; _defaultValue := Some e |}.

(** The [PreGrasp] object (its four frames, [self.tasks], [self.topics], the
    attributes above and the topic registrations it made), the entity graph,
    the signals of the robot entity ([opPoints]) and the standard output. *)
Record State := {
  gripper : OpFrame;
  handle : OpFrame;
  otherGripper : option OpFrame;
  otherHandle : option OpFrame;
  tasks : list string;
  topics : gmap string Topic;
  attrs : Attrs;
  entities : gmap string EntityClass;
  wiring : gmap Signal Source;
  opPoints : gset Signal;
  calls : list (string * Call);
  registrations : list Registration;
  stdout : list string;
}.

Definition set_roles (g h : OpFrame) (s : State) : State :=
  {| gripper := g; handle := h; otherGripper := otherGripper s;
     otherHandle := otherHandle s; tasks := tasks s; topics := topics s;
     attrs := attrs s; entities := entities s; wiring := wiring s;
     opPoints := opPoints s; calls := calls s;
     registrations := registrations s; stdout := stdout s |}.

Definition set_tasks (t : list string) (s : State) : State :=
  {| gripper := gripper s; handle := handle s; otherGripper := otherGripper s;
     otherHandle := otherHandle s; tasks := t; topics := topics s;
     attrs := attrs s; entities := entities s; wiring := wiring s;
     opPoints := opPoints s; calls := calls s;
     registrations := registrations s; stdout := stdout s |}.

Definition set_topics (t : gmap string Topic) (s : State) : State :=
  {| gripper := gripper s; handle := handle s; otherGripper := otherGripper s;
     otherHandle := otherHandle s; tasks := tasks s; topics := t;
     attrs := attrs s; entities := entities s; wiring := wiring s;
     opPoints := opPoints s; calls := calls s;
     registrations := registrations s; stdout := stdout s |}.

Definition set_attrs (a : Attrs) (s : State) : State :=
  {| gripper := gripper s; handle := handle s; otherGripper := otherGripper s;
     otherHandle := otherHandle s; tasks := tasks s; topics := topics s;
     attrs := a; entities := entities s; wiring := wiring s;
     opPoints := opPoints s; calls := calls s;
     registrations := registrations s; stdout := stdout s |}.

Definition set_entities (e : gmap string EntityClass) (s : State) : State :=
  {| gripper := gripper s; handle := handle s; otherGripper := otherGripper s;
     otherHandle := otherHandle s; tasks := tasks s; topics := topics s;
     attrs := attrs s; entities := e; wiring := wiring s;
     opPoints := opPoints s; calls := calls s;
     registrations := registrations s; stdout := stdout s |}.

Definition set_wiring (w : gmap Signal Source) (s : State) : State :=
  {| gripper := gripper s; handle := handle s; otherGripper := otherGripper s;
     otherHandle := otherHandle s; tasks := tasks s; topics := topics s;
     attrs := attrs s; entities := entities s; wiring := w;
     opPoints := opPoints s; calls := calls s;
     registrations := registrations s; stdout := stdout s |}.

Definition set_opPoints (o : gset Signal) (s : State) : State :=
  {| gripper := gripper s; handle := handle s; otherGripper := otherGripper s;
     otherHandle := otherHandle s; tasks := tasks s; topics := topics s;
     attrs := attrs s; entities := entities s; wiring := wiring s;
     opPoints := o; calls := calls s;
     registrations := registrations s; stdout := stdout s |}.

Definition set_calls (c : list (string * Call)) (s : State) : State :=
  {| gripper := gripper s; handle := handle s; otherGripper := otherGripper s;
     otherHandle := otherHandle s; tasks := tasks s; topics := topics s;
     attrs := attrs s; entities := entities s; wiring := wiring s;
     opPoints := opPoints s; calls := c;
     registrations := registrations s; stdout := stdout s |}.

Definition set_registrations (r : list Registration) (s : State) : State :=
  {| gripper := gripper s; handle := handle s; otherGripper := otherGripper s;
     otherHandle := otherHandle s; tasks := tasks s; topics := topics s;
     attrs := attrs s; entities := entities s; wiring := wiring s;
     opPoints := opPoints s; calls := calls s; registrations := r;
     stdout := stdout s |}.

Definition set_stdout (o : list string) (s : State) : State :=
  {| gripper := gripper s; handle := handle s; otherGripper := otherGripper s;
     otherHandle := otherHandle s; tasks := tasks s; topics := topics s;
     attrs := attrs s; entities := entities s; wiring := wiring s;
     opPoints := opPoints s; calls := calls s;
     registrations := registrations s; stdout := o |}.

(** ** The monad of methods *)

(** [AssertionError] is a failed [assert] statement of this file;
    [EntityAlreadyExists n] is the assertion that fails inside
    [assertEntityDoesNotExist n]; [UnboundFrameError n] is the failure of
    [sotrobot.dynamic.signal(n)] for a signal that the robot entity does not
    have. *)
Inductive Exception :=
  | AssertionError
  | EntityAlreadyExists (n : string)
  | AttributeError (attr : string)
  | KeyError (key : string)
  | TypeError
  | UnboundFrameError (n : string).

Inductive Result (A : Type) :=
  | Ok (a : A)
  | Raise (e : Exception).
Global Arguments Ok {A} a.
Global Arguments Raise {A} e.

Definition M (A : Type) : Type := State → Result A * State.

Global Instance M_ret : MRet M := λ A a s, (Ok a, s).
Global Instance M_bind : MBind M := λ A B f m s,
  match m s with
  | (Ok a, s') => f a s'
  | (Raise e, s') => (Raise e, s')
  end.

Definition raise {A} (e : Exception) : M A := λ s, (Raise e, s).
Definition gets {A} (f : State → A) : M A := λ s, (Ok (f s), s).
Definition modify (f : State → State) : M unit := λ s, (Ok tt, f s).

(** [assert c] *)
Definition assert (c : bool) : M unit :=
  if c then mret tt else raise AssertionError.

Definition print (line : string) : M unit :=
  modify (λ s, set_stdout (stdout s ++ [line]) s).

(** [self.<attr>] for an attribute created on the fly: reading one that was
    never assigned raises. *)
Definition getattr (attr : string) (proj : Attrs → option string) : M string :=
  a ← gets attrs;
  match proj a with
  | Some e => mret e
  | None => raise (AttributeError attr)
  end.

(** [self.<attr> = entity] *)
Definition setattr (set : string → Attrs → Attrs) (entity : string) : M unit :=
  modify (λ s, set_attrs (set entity (attrs s)) s).

(** [self.otherGripper.<...>] and [self.otherHandle.<...>]: reading an
    attribute of [None] raises. *)
Definition the_otherGripper : M OpFrame :=
  o ← gets otherGripper;
  match o with Some f => mret f | None => raise (AttributeError "otherGripper") end.

Definition the_otherHandle : M OpFrame :=
  o ← gets otherHandle;
  match o with Some f => mret f | None => raise (AttributeError "otherHandle") end.

(** ** dynamic_graph *)

(** [plug(out, sin)] *)
Definition plug (out sin : Signal) : M unit :=
  modify (λ s, set_wiring (<[sin := Plugged out]> (wiring s)) s).

(** [sin.value = v] *)
Definition set_value (sin : Signal) (v : Value) : M unit :=
  modify (λ s, set_wiring (<[sin := Constant v]> (wiring s)) s).

(** [Class(name)]: the entity is registered under its name. *)
Definition new_entity (cls : EntityClass) (n : string) : M unit :=
  modify (λ s, set_entities (<[n := cls]> (entities s)) s).

(** [entity.method(args)] *)
Definition call (entity : string) (c : Call) : M unit :=
  modify (λ s, set_calls (calls s ++ [(entity, c)]) s).

(** The name of the signal [n] of the entity [sotrobot.dynamic]. *)
Definition dynamic_signal (sotrobot : SotRobot) (n : string) : Signal :=
  (dynamic sotrobot, n).

(** Modelled from the spec: [sotrobot.dynamic.signal(n)].  The robot entity
    has the signals of the operational points created so far ([opPoints]);
    requesting the pose of a frame with no registered source is a
    construction-time failure. *)
Definition signal (sotrobot : SotRobot) (n : string) : M Signal :=
  op ← gets opPoints;
  if decide (dynamic_signal sotrobot n ∈ op)
  then mret (dynamic_signal sotrobot n)
  else raise (UnboundFrameError n).

(** The signals of the entities, named as the attributes the source reads. *)
Definition str (i : nat) : string := NilEmpty.string_of_uint (Nat.to_uint i).
Definition sin (e : string) : Signal := (e, "sin").
Definition sin_ (i : nat) (e : string) : Signal := (e, "sin" +:+ str i).
Definition sout (e : string) : Signal := (e, "sout").
Definition condition (e : string) : Signal := (e, "condition").
Definition then_ (e : string) : Signal := (e, "then_").
Definition else_ (e : string) : Signal := (e, "else_").
Definition out (e : string) : Signal := (e, "out").
Definition oMja (e : string) : Signal := (e, "oMja").
Definition jaMfa (e : string) : Signal := (e, "jaMfa").
Definition jaJja (e : string) : Signal := (e, "jaJja").
Definition oMjb (e : string) : Signal := (e, "oMjb").
Definition jbMfb_ (e : string) : Signal := (e, "jbMfb").
Definition jbJjb (e : string) : Signal := (e, "jbJjb").
Definition faMfbDes_ (e : string) : Signal := (e, "faMfbDes").
Definition controlGain (e : string) : Signal := (e, "controlGain").
Definition error (e : string) : Signal := (e, "error").
Definition gain_ (e : string) : Signal := (e, "gain").

(** ** agimus_sot.tools *)

(** Modelled from the spec: [assertEntityDoesNotExist], whose body is not in
    this file.  Constructing an entity under a name that already exists is a
    fatal configuration error. *)
Definition assertEntityDoesNotExist (n : string) : M unit :=
  e ← gets entities;
  match e !! n with
  | None => mret tt
  | Some _ => raise (EntityAlreadyExists n)
  end.

(** Modelled from the spec: [_createOpPoint], whose body is not in this file.
    It makes the kinematic model expose the pose of the named body and its
    Jacobian; doing it again for the same body changes nothing. *)
Definition _createOpPoint (sotrobot : SotRobot) (n : string) : M unit :=
  modify (λ s, set_opPoints
    ({[ dynamic_signal sotrobot n; dynamic_signal sotrobot ("J" +:+ n) ]}
       ∪ opPoints s) s).

(** Modelled from the spec: how a factor reaches an input signal.  A
    constant pose is assigned, an output signal is plugged, [None] leaves the
    input open. *)
Definition plugMatrixHomo (f : Factor) (sin : Signal) : M unit :=
  match f with
  | FNone => mret tt
  | FPose m => set_value sin (MatrixHomo m)
  | FSignal o => plug o sin
  end.

Fixpoint plug_factors (e : string) (i : nat) (args : list Factor) : M unit :=
  match args with
  | [] => mret tt
  | f :: rest => plugMatrixHomo f (sin_ i e);; plug_factors e (S i) rest
  end.

(** Modelled from the spec: [matrixHomoInverse], whose body is not in this
    file.  The entity inverts the pose on [sin] and exposes it on [sout]. *)
Definition matrixHomoInverse (n : string) (valueOrSignal : Factor)
    (check : bool) : M string :=
  (if check then assertEntityDoesNotExist n else mret tt);;
  new_entity Inverse_of_matrixHomo n;;
  plugMatrixHomo valueOrSignal (sin n);;
  mret n.

(** Modelled from the spec: [matrixHomoProduct], whose body is not in this
    file.  The entity multiplies its inputs [sin0], [sin1], ... in that order
    and exposes the product on [sout]. *)
Definition matrixHomoProduct (n : string) (args : list Factor)
    (check : bool) : M string :=
  (if check then assertEntityDoesNotExist n else mret tt);;
  new_entity Multiply_of_matrixHomo n;;
  call n (setSignalNumber (length args));;
  plug_factors n 0 args;;
  mret n.

(** Modelled from the spec: [entityIfMatrixHomo], whose body is not in this
    file.  The guarded selector: [out] is [then_] when [condition] holds and
    [else_] otherwise. *)
Definition entityIfMatrixHomo (n : string) (cond : option Signal)
    (value_then value_else : Factor) (check : bool) : M string :=
  (if check then assertEntityDoesNotExist n else mret tt);;
  new_entity IfMatrixHomo n;;
  match cond with Some c => plug c (condition n) | None => mret tt end;;
  plugMatrixHomo value_then (then_ n);;
  plugMatrixHomo value_else (else_ n);;
  mret n.

(** ** The base class [Task] *)

(** Modelled from the spec: [Task.__init__], [Task.addHppJointTopic],
    [Task.addTfListenerTopic], [Task.extendSignalGetters],
    [Task.makeTfListenerDefaultValue] and [Task.addTrace], whose bodies are not
    in this file.  A task starts with no control task and no topic; a topic
    registers interest in a planner joint placement or in the measured pose
    between two frames, for the listed input signals; registering a topic
    again adds the new signals to it. *)
Definition register_topic (topicName : string) (h : Handler)
    (getters : list Getter) (t : gmap string Topic) : gmap string Topic :=
  match t !! topicName with
  | Some tp =>
      <[topicName := {| handler := handler tp;
                        signalGetters := signalGetters tp ++ getters |}]> t
  | None =>
      <[topicName := {| handler := h; signalGetters := getters |}]> t
  end.

(** The call is recorded in [registrations]. *)
Definition register (r : Registration) : M unit :=
  modify (λ s, set_registrations (registrations s ++ [r]) s).

Definition addHppJointTopic (topicName : string) (getters : list Getter)
    : M unit :=
  register (HppJointTopic topicName getters);;
  modify (λ s, set_topics (register_topic topicName hppjoint getters (topics s)) s).

Definition addTfListenerTopic (topicName frame0 frame1 : string)
    (getters : list Getter) : M unit :=
  register (TfListenerTopic topicName frame0 frame1 getters);;
  modify (λ s, set_topics
    (register_topic topicName (tf_listener frame0 frame1) getters (topics s)) s).

(** The topic must have been created before ([self.topics[topicName]]). *)
Definition extendSignalGetters (topicName : string) (getter : Signal) : M unit :=
  register (SignalGetters topicName getter);;
  t ← gets topics;
  match t !! topicName with
  | Some tp =>
      modify (set_topics
        (<[topicName := {| handler := handler tp;
                           signalGetters := signalGetters tp ++ [Sig getter] |}]> t))
  | None => raise (KeyError topicName)
  end.

(** A selector whose fallback is the constant [value] and whose other input
    is left to the TF listener; its output feeds [outputs]. *)
Definition makeTfListenerDefaultValue (n : string) (value : SE3)
    (outputs : Signal) : M (string * Getter) :=
  if_ ← entityIfMatrixHomo n None FNone (FPose value) true;
  plug (out if_) outputs;;
  mret (if_, SigCond (then_ if_) (condition if_)).

Definition addTrace (tracer : string) : M unit := mret tt.

(** [Task.__init__] followed by the body of [PreGrasp.__init__], for an
    object created in the world of [world] (its entity graph and output). *)
Definition __init__ (gripper handle : OpFrame)
    (otherGraspOnObject : option (OpFrame * OpFrame)) (world : State) : State :=
  {| gripper := gripper; handle := handle;
     otherGripper := fst <$> otherGraspOnObject;
     otherHandle := snd <$> otherGraspOnObject;
     tasks := []; topics := ∅; attrs := no_attrs;
     entities := entities world; wiring := wiring world;
     opPoints := opPoints world; calls := calls world; registrations := [];
     stdout := stdout world |}.

(** ** The class [PreGrasp] *)

Definition name_prefix : string := "pregrasp".
Definition meas_suffix : string := "_measured".

(** [PreGrasp._plugRobotLink] *)
Definition _plugRobotLink (sotrobot : SotRobot) (linkName : string)
    (poseSignal : Signal) (Jsignal : option Signal) (withMeasurement : bool)
    : M unit :=
  (if withMeasurement then
     _createOpPoint sotrobot (camera_frame sotrobot);;
     let linkNameMeas := linkName +:+ meas_suffix in
     oMc ← signal sotrobot (camera_frame sotrobot);
     oMl ← matrixHomoProduct (linkNameMeas +:+ "_wrt_world")
             [FSignal oMc; FNone]
             false;
     oMlink ← signal sotrobot linkName;
     if_ ← entityIfMatrixHomo (linkNameMeas +:+ "_wrt_world_safe") None
             (FSignal (sout oMl))
             (FSignal oMlink)
             false;
     addTfListenerTopic linkNameMeas (camera_frame sotrobot) linkNameMeas
       [SigCond (sin_ 1 oMl) (condition if_)];;
     plug (out if_) poseSignal
   else
     oMlink ← signal sotrobot linkName;
     plug oMlink poseSignal;;
     print ("Plug robot link: no measument for " +:+ linkName));;
  match Jsignal with
  | Some J => Jlink ← signal sotrobot ("J" +:+ linkName); plug Jlink J
  | None => mret tt
  end.

(** [PreGrasp._plugObjectLink] *)
Definition _plugObjectLink (sotrobot : SotRobot) (linkName : string)
    (outSignal : Signal) (withMeasurement : bool) : M unit :=
  if withMeasurement then
    let linkNameMeas := linkName +:+ meas_suffix in
    _createOpPoint sotrobot (camera_frame sotrobot);;
    oMc ← signal sotrobot (camera_frame sotrobot);
    oMl ← matrixHomoProduct (linkNameMeas +:+ "_wrt_world")
            [FSignal oMc; FNone]
            false;
    let name := linkNameMeas +:+ "wrt_world" in
    if_ ← entityIfMatrixHomo name None (FSignal (sout oMl)) FNone false;
    addTfListenerTopic linkNameMeas (camera_frame sotrobot) linkNameMeas
      [SigCond (sin_ 1 oMl) (condition if_)];;
    addHppJointTopic linkName [Sig (else_ if_)];;
    plug (out if_) outSignal
  else
    print ("Plug object link: no measument for " +:+ linkName);;
    extendSignalGetters linkName outSignal.

(** [self.feature], [self.task], ...: reading an attribute of [self]. *)
Definition self_feature : M string := getattr "feature" feature.
Definition self_task : M string := getattr "task" task.
Definition self_gain : M string := getattr "gain" gain.
Definition self_oMjaDes_inv : M string := getattr "oMjaDes_inv" oMjaDes_inv.
Definition self_faMfbDes : M string := getattr "faMfbDes" faMfbDes.
Definition self_jbMfb : M string := getattr "jbMfb" jbMfb.
Definition self_wMog_inv : M string := getattr "wMog_inv" wMog_inv.

(** [PreGrasp._referenceSignal] *)
Definition _referenceSignal (name : string) (gripper handle : OpFrame) : M unit :=
  e ← matrixHomoInverse (name +:+ "_oMjaDes_inv") FNone true;
  setattr set_oMjaDes_inv e;;
  inv ← self_oMjaDes_inv;
  addHppJointTopic (fullLink gripper) [Sig (sin inv)];;
  inv ← self_oMjaDes_inv;
  e ← matrixHomoProduct (name +:+ "_faMfbDes")
        [FPose (se3_inverse (lMf gripper));
         FSignal (sout inv);
         FNone;
         FPose (lMf handle)]
        true;
  setattr set_faMfbDes e;;
  prod ← self_faMfbDes;
  extendSignalGetters (fullLink handle) (sin_ 2 prod).

(** [PreGrasp._createTaskAndGain] *)
Definition _createTaskAndGain (name : string) : M unit :=
  new_entity SotTask (name +:+ "_task");;
  setattr set_task (name +:+ "_task");;
  t ← self_task;
  f ← self_feature;
  call t (add f);;
  new_entity SafeGainAdaptive (name +:+ "_gain");;
  setattr set_gain (name +:+ "_gain");;
  g ← self_gain;
  call g (computeParameters 0.9 0.1 0.3 1);;
  g ← self_gain;
  t ← self_task;
  plug (gain_ g) (controlGain t);;
  t ← self_task;
  g ← self_gain;
  plug (error t) (error g).

(** [PreGrasp._makeAbsolute] *)
Definition _makeAbsolute (sotrobot : SotRobot)
    (withMeasurementOfObjectPos withMeasurementOfGripperPos withDerivative : bool)
    : M unit :=
  g ← gets gripper;
  h ← gets handle;
  let name := _name [name g; fullName h] in
  assertEntityDoesNotExist (name +:+ "_feature");;
  new_entity FeaturePose (name +:+ "_feature");;
  setattr set_feature (name +:+ "_feature");;
  _createOpPoint sotrobot (link g);;
  f ← self_feature;
  _plugRobotLink sotrobot (link g) (oMja f) (Some (jaJja f))
    withMeasurementOfGripperPos;;
  f ← self_feature;
  set_value (jaMfa f) (MatrixHomo (lMf g));;
  addHppJointTopic (fullLink h) [];;
  f ← self_feature;
  _plugObjectLink sotrobot (fullLink h) (oMjb f) withMeasurementOfObjectPos;;
  f ← self_feature;
  set_value (jbMfb_ f) (MatrixHomo (lMf h));;
  f ← self_feature;
  set_value (jbJjb f) (Zeros 6 (getDimension sotrobot));;
  _referenceSignal name g h;;
  prod ← self_faMfbDes;
  f ← self_feature;
  plug (sout prod) (faMfbDes_ f);;
  _createTaskAndGain name;;
  (if withDerivative
   then print "Relative pose constraint with derivative is not implemented yet."
   else mret tt);;
  t ← self_task;
  call t (setWithDerivative false);;
  t ← self_task;
  modify (set_tasks [t]).

(** [PreGrasp._makeRelativeTask] *)
Definition _makeRelativeTask (sotrobot : SotRobot)
    (withMeasurementOfObjectPos withMeasurementOfGripperPos
     withMeasurementOfOtherGripperPos withDerivative : bool) : M unit :=
  g ← gets gripper;
  h ← gets handle;
  oh ← the_otherHandle;
  assert (bool_decide (robotName h = robotName oh));;
  assert (bool_decide (link h = link oh));;
  og ← the_otherGripper;
  let name := _name [name g; fullName h; "relative"; name og; fullName oh] in
  assertEntityDoesNotExist (name +:+ "_feature");;
  new_entity FeaturePose (name +:+ "_feature");;
  setattr set_feature (name +:+ "_feature");;
  _createOpPoint sotrobot (link g);;
  _createOpPoint sotrobot (link og);;
  (* Joint A is the gripper link *)
  f ← self_feature;
  _plugRobotLink sotrobot (link g) (oMja f) (Some (jaJja f))
    withMeasurementOfGripperPos;;
  (* Frame A is the gripper frame *)
  f ← self_feature;
  set_value (jaJja f) (Zeros 6 (getDimension sotrobot));;
  f ← self_feature;
  set_value (jaMfa f) (MatrixHomo (lMf g));;
  (* Joint B is the other gripper link *)
  f ← self_feature;
  _plugRobotLink sotrobot (link og) (oMjb f) (Some (jbJjb f))
    withMeasurementOfOtherGripperPos;;
  f ← self_feature;
  set_value (jbJjb f) (Zeros 6 (getDimension sotrobot));;
  (* Frame B is the handle frame *)
  let method := 3 in
  match method with
  | 0 =>
      f ← self_feature;
      set_value (jbMfb_ f)
        (MatrixHomo (se3_mul (se3_mul (lMf og) (se3_inverse (lMf oh))) (lMf h)));;
      addHppJointTopic (fullLink h) []
  | 1 =>
      e ← matrixHomoInverse (name +:+ "_wMog_inv") FNone true;
      setattr set_wMog_inv e;;
      inv ← self_wMog_inv;
      _plugRobotLink sotrobot (link og) (sin inv) None
        withMeasurementOfOtherGripperPos;;
      inv ← self_wMog_inv;
      e ← matrixHomoProduct (name +:+ "_jbMfb")
            [FSignal (sout inv); FNone; FPose (lMf h)] true;
      setattr set_jbMfb e;;
      addHppJointTopic (fullLink h) [];;
      prod ← self_jbMfb;
      _plugObjectLink sotrobot (fullLink h) (sin_ 1 prod)
        withMeasurementOfObjectPos;;
      prod ← self_jbMfb;
      f ← self_feature;
      plug (sout prod) (jbMfb_ f)
  | 2 =>
      e ← matrixHomoProduct (name +:+ "_jbMfb") [FNone; FPose (lMf h)] true;
      setattr set_jbMfb e;;
      prod ← self_jbMfb;
      f ← self_feature;
      plug (sout prod) (jbMfb_ f);;
      prod ← self_jbMfb;
      '(dv, signals) ← makeTfListenerDefaultValue (name +:+ "_defaultValue")
                         (se3_mul (lMf og) (se3_inverse (lMf oh)))
                         (sin_ 0 prod);
      setattr set__defaultValue dv;;
      addTfListenerTopic
        (fullLink oh +:+ meas_suffix +:+ "_wrt_" +:+ link og +:+ meas_suffix)
        (link og +:+ meas_suffix) (fullLink oh +:+ meas_suffix) [signals];;
      addHppJointTopic (fullLink h) []
  | 3 =>
      f ← self_feature;
      set_value (jbMfb_ f)
        (MatrixHomo (se3_mul (se3_mul (lMf og) (se3_inverse (lMf oh))) (lMf h)));;
      addHppJointTopic (fullLink h) []
  | _ => mret tt
  end;;
  _referenceSignal name g h;;
  prod ← self_faMfbDes;
  f ← self_feature;
  plug (sout prod) (faMfbDes_ f);;
  _createTaskAndGain name;;
  (if withDerivative
   then print "Relative pose constraint with derivative is not implemented yet."
   else mret tt);;
  t ← self_task;
  call t (setWithDerivative false);;
  t ← self_task;
  modify (set_tasks [t]).

(** [PreGrasp._makeAbsoluteBasedOnOther] *)
Definition _makeAbsoluteBasedOnOther (sotrobot : SotRobot)
    (withMeasurementOfObjectPos withMeasurementOfGripperPos
     withMeasurementOfOtherGripperPos withDerivative : bool) : M unit :=
  g ← gets gripper;
  h ← gets handle;
  oh ← the_otherHandle;
  assert (bool_decide (robotName h = robotName oh));;
  assert (bool_decide (link h = link oh));;
  og ← the_otherGripper;
  let name := _name [fullName g; fullName h; "based"; name og; fullName oh] in
  assertEntityDoesNotExist (name +:+ "_feature");;
  new_entity FeaturePose (name +:+ "_feature");;
  setattr set_feature (name +:+ "_feature");;
  _createOpPoint sotrobot (link og);;
  (* Joint A is the gripper link *)
  addHppJointTopic (fullLink g) [];;
  f ← self_feature;
  _plugObjectLink sotrobot (fullLink g) (oMja f) withMeasurementOfGripperPos;;
  (* Frame A is the gripper frame *)
  f ← self_feature;
  set_value (jaMfa f) (MatrixHomo (lMf g));;
  f ← self_feature;
  set_value (jaJja f) (Zeros 6 (getDimension sotrobot));;
  (* Joint B is the other gripper link *)
  f ← self_feature;
  _plugRobotLink sotrobot (link og) (oMjb f) (Some (jbJjb f))
    withMeasurementOfOtherGripperPos;;
  (* Frame B is the handle frame *)
  let method := 1 in
  match method with
  | 0 =>
      e ← matrixHomoInverse (name +:+ "_wMog_inv") FNone true;
      setattr set_wMog_inv e;;
      inv ← self_wMog_inv;
      _plugRobotLink sotrobot (link og) (sin inv) None
        withMeasurementOfOtherGripperPos;;
      inv ← self_wMog_inv;
      e ← matrixHomoProduct (name +:+ "_jbMfb")
            [FSignal (sout inv); FNone; FPose (lMf h)] true;
      setattr set_jbMfb e;;
      addHppJointTopic (fullLink h) [];;
      (* [_plugObjectLink] is called without [sotrobot] *)
      prod ← self_jbMfb;
      raise TypeError
  | 1 =>
      (if withMeasurementOfOtherGripperPos then
         e ← matrixHomoProduct (name +:+ "_jbMfb") [FNone; FPose (lMf h)] true;
         setattr set_jbMfb e;;
         prod ← self_jbMfb;
         f ← self_feature;
         plug (sout prod) (jbMfb_ f);;
         prod ← self_jbMfb;
         '(dv, signals) ← makeTfListenerDefaultValue (name +:+ "_defaultValue")
                            (se3_mul (lMf og) (se3_inverse (lMf oh)))
                            (sin_ 0 prod);
         setattr set__defaultValue dv;;
         addTfListenerTopic
           (fullLink oh +:+ meas_suffix +:+ "_wrt_" +:+ link og +:+ meas_suffix)
           (link og +:+ meas_suffix) (fullLink oh +:+ meas_suffix) [signals]
       else
         oMog ← signal sotrobot (link og);
         inv ← matrixHomoInverse (link og +:+ "_inv") (FSignal oMog) true;
         oMc ← signal sotrobot (camera_frame sotrobot);
         ogMo ← matrixHomoProduct (name +:+ "_jbMfb_meas")
                  [FSignal (sout inv);
                   FSignal oMc;
                   FNone;
                   FPose (lMf h)]
                  true;
         if_ ← entityIfMatrixHomo (name +:+ "_jbMfb_cond") None
                 (FSignal (sout ogMo))
                 (FPose (se3_mul (se3_mul (lMf og) (se3_inverse (lMf oh))) (lMf h)))
                 true;
         f ← self_feature;
         plug (out if_) (jbMfb_ f);;
         addTfListenerTopic (fullLink oh +:+ meas_suffix)
           (camera_frame sotrobot) (fullLink h +:+ meas_suffix)
           [SigCond (sin_ 2 ogMo) (condition if_)]);;
      addHppJointTopic (fullLink h) []
  | _ => mret tt
  end;;
  _referenceSignal name g h;;
  prod ← self_faMfbDes;
  f ← self_feature;
  plug (sout prod) (faMfbDes_ f);;
  _createTaskAndGain name;;
  (if withDerivative
   then print "Relative pose constraint with derivative is not implemented yet."
   else mret tt);;
  t ← self_task;
  call t (setWithDerivative false);;
  t ← self_task;
  modify (set_tasks [t]).

(** [PreGrasp.makeTasks], over the three builders it dispatches to: they are
    methods looked up on [self]. *)
Section makeTasks.
Variable makeAbsolute : SotRobot → bool → bool → bool → M unit.
Variables makeRelativeTask makeAbsoluteBasedOnOther :
  SotRobot → bool → bool → bool → bool → M unit.

Definition makeTasks_with (sotrobot : SotRobot)
    (withMeasurementOfObjectPos withMeasurementOfGripperPos
     withMeasurementOfOtherGripperPos withDerivative : bool) : M unit :=
  g ← gets gripper;
  assert (enabled g);;
  og ← gets otherGripper;
  assert (match og with None => true | Some o => enabled o end);;
  g ← gets gripper;
  if controllable g then
    og ← gets otherGripper;
    if match og with None => false | Some o => controllable o end then
      makeRelativeTask sotrobot
        withMeasurementOfObjectPos withMeasurementOfGripperPos
        withMeasurementOfOtherGripperPos withDerivative
    else
      makeAbsolute sotrobot
        withMeasurementOfObjectPos withMeasurementOfGripperPos
        withDerivative
  else
    og ← gets otherGripper;
    if match og with None => false | Some o => controllable o end then
      g ← gets gripper;
      h ← gets handle;
      oh ← the_otherHandle;
      (if negb (bool_decide (robotName h = robotName oh))
          && bool_decide (robotName g = robotName oh)
       then
         (* locally inverse the gripper and the handle *)
         print ("swapping gripper " +:+ fullName g +:+ " and handle " +:+ fullName h);;
         modify (set_roles h g)
       else mret tt);;
      makeAbsoluteBasedOnOther sotrobot
        withMeasurementOfObjectPos withMeasurementOfGripperPos
        withMeasurementOfOtherGripperPos withDerivative
    else
      print "Both grippers are disabled so nothing can be done".
End makeTasks.

(** [PreGrasp.makeTasks] *)
Definition makeTasks : SotRobot → bool → bool → bool → bool → M unit :=
  makeTasks_with _makeAbsolute _makeRelativeTask _makeAbsoluteBasedOnOther.

(** [PreGrasp.addVisualServoingTrace] *)
Definition addVisualServoingTrace (tracer : string) : M unit :=
  addTrace tracer;;
  f ← self_feature;
  f' ← self_feature;
  call tracer (tracer_add (f +:+ ".faMfbDes") (filename_escape f' +:+ ".desired"));;
  f ← self_feature;
  f' ← self_feature;
  call tracer (tracer_add (f +:+ ".faMfb") (filename_escape f' +:+ ".actual")).

(** ** The strategy table of the specification *)

Inductive Strategy :=
  | Absolute
  | Relative
  | AbsoluteBasedOnOther
  | NoOp.

(** The decision table as the specification words it: the strategy is read
    off [gripper.controllable] and "otherGripper present & controllable". *)
Definition decision_table
    (gripper_controllable other_present other_controllable : bool) : Strategy :=
  match gripper_controllable, other_present && other_controllable with
  | true, false => Absolute
  | true, true => Relative
  | false, true => AbsoluteBasedOnOther
  | false, false => NoOp
  end.

Definition present (o : option OpFrame) : bool :=
  match o with Some _ => true | None => false end.

Definition strategy_of (s : State) : Strategy :=
  decision_table (controllable (gripper s)) (present (otherGripper s))
    (from_option controllable false (otherGripper s)).

(** The precondition of [makeTasks] on the enablement flags. *)
Definition all_enabled (s : State) : bool :=
  enabled (gripper s) && from_option enabled true (otherGripper s).

(** The swap of the specification: the handle and [otherHandle] belong to
    different robots while the gripper shares its robot with [otherHandle]. *)
Definition swap_needed (g h oh : OpFrame) : bool :=
  negb (bool_decide (robotName h = robotName oh))
  && bool_decide (robotName g = robotName oh).

Definition swapped (s : State) : State :=
  set_roles (handle s) (gripper s)
    (set_stdout
       (stdout s ++ ["swapping gripper " +:+ fullName (gripper s)
                     +:+ " and handle " +:+ fullName (handle s)]) s).

Definition resolve_roles (oh : OpFrame) (s : State) : State :=
  if swap_needed (gripper s) (handle s) oh then swapped s else s.

Definition nothing_done (s : State) : State :=
  set_stdout (stdout s ++ ["Both grippers are disabled so nothing can be done"]) s.

(** ** The dispatch of [makeTasks] *)

Lemma makeTasks_with_dispatch A R O rob wObj wGrip wOther wDer s :
  all_enabled s = true →
  makeTasks_with A R O rob wObj wGrip wOther wDer s =
  match strategy_of s with
  | Absolute => A rob wObj wGrip wDer s
  | Relative => R rob wObj wGrip wOther wDer s
  | AbsoluteBasedOnOther =>
      match otherHandle s with
      | Some oh => O rob wObj wGrip wOther wDer (resolve_roles oh s)
      | None => (Raise (AttributeError "otherHandle"), s)
      end
  | NoOp => (Ok tt, nothing_done s)
  end.
Proof.
  unfold all_enabled, strategy_of, decision_table, present, resolve_roles,
    swap_needed, makeTasks_with.
  destruct s as [g h og oh tk tp at_ en wi op ca rg out].
  destruct g as [gn gf gl gfl gr gM [] gc]; [|discriminate].
  destruct og as [[on_ of_ ol ofl or_ oM [] oc]|]; try discriminate; intros _;
    destruct gc; try destruct oc; try reflexivity.
  all: destruct oh as [oh|]; [|reflexivity].
  all: cbv [mbind M_bind gets assert mret M_ret raise the_otherHandle print
            modify gripper handle otherGripper otherHandle enabled controllable
            robotName fullName].
  all: destruct (negb _ && _); reflexivity.
Qed.

Lemma makeTasks_with_disabled A R O rob wObj wGrip wOther wDer s :
  all_enabled s = false →
  makeTasks_with A R O rob wObj wGrip wOther wDer s = (Raise AssertionError, s).
Proof.
  unfold all_enabled, makeTasks_with.
  destruct s as [g h og oh tk tp at_ en wi op ca rg out].
  destruct g as [gn gf gl gfl gr gM [] gc]; [|reflexivity].
  destruct og as [[on_ of_ ol ofl or_ oM [] oc]|]; try discriminate.
  reflexivity.
Qed.

(** ** Reasoning about the builders *)

(** [wp m Q s]: running [m] from [s] ends in a result and a state that
    satisfy [Q]. *)
Definition wp {A} (m : M A) (Q : Result A → State → Prop) (s : State) : Prop :=
  let '(r, s') := m s in Q r s'.

Lemma wp_run {A} (m : M A) (Q : Result A → State → Prop) s r s' :
  wp m Q s → m s = (r, s') → Q r s'.
Proof. unfold wp. intros Hwp E. rewrite E in Hwp. exact Hwp. Qed.

Lemma register_topic_here k h g (t : gmap string Topic) :
  is_Some (register_topic k h g t !! k).
Proof. unfold register_topic. destruct (t !! k); rewrite lookup_insert_eq; eauto. Qed.

Lemma register_topic_keep k k' h g (t : gmap string Topic) :
  is_Some (t !! k) → is_Some (register_topic k' h g t !! k).
Proof.
  intros Hk. unfold register_topic.
  destruct (t !! k') eqn:E; (destruct (decide (k' = k)) as [->|];
    [rewrite lookup_insert_eq; eauto | by rewrite lookup_insert_ne]).
Qed.

Lemma insert_topic_keep k k' tq (t : gmap string Topic) :
  is_Some (t !! k) → is_Some (<[k' := tq]> t !! k).
Proof.
  intros. destruct (decide (k' = k)) as [->|];
    [rewrite lookup_insert_eq | rewrite lookup_insert_ne]; eauto.
Qed.

(** [subscribed t k x]: the input [x] is among the signal getters of the
    topic named [k]. *)
Definition subscribed (t : gmap string Topic) (k : string) (x : Getter) : Prop :=
  ∃ tp, t !! k = Some tp ∧ x ∈ signalGetters tp.

Lemma subscribed_register k h g x (t : gmap string Topic) :
  x ∈ g → subscribed (register_topic k h g t) k x.
Proof.
  intros Hx. unfold subscribed, register_topic.
  destruct (t !! k); rewrite lookup_insert_eq; eexists; split; try done;
    cbn; set_solver.
Qed.

Lemma subscribed_register_keep k k' h g x (t : gmap string Topic) :
  subscribed t k x → subscribed (register_topic k' h g t) k x.
Proof.
  intros (tp & Hk & Hx). unfold subscribed, register_topic.
  destruct (decide (k' = k)) as [->|].
  - rewrite Hk, lookup_insert_eq. eexists; split; [done|]. cbn. set_solver.
  - destruct (t !! k'); rewrite lookup_insert_ne by done; eauto.
Qed.

Lemma subscribed_extend k x tp (t : gmap string Topic) :
  subscribed
    (<[k := {| handler := handler tp; signalGetters := signalGetters tp ++ [x] |}]> t)
    k x.
Proof.
  unfold subscribed. rewrite lookup_insert_eq. eexists; split; [done|].
  cbn. set_solver.
Qed.

Lemma subscribed_extend_keep k k' x y tp (t : gmap string Topic) :
  t !! k' = Some tp →
  subscribed t k x →
  subscribed
    (<[k' := {| handler := handler tp; signalGetters := signalGetters tp ++ [y] |}]> t)
    k x.
Proof.
  intros Hk' (tq & Hk & Hx). unfold subscribed.
  destruct (decide (k' = k)) as [->|].
  - rewrite lookup_insert_eq. simplify_eq. eexists; split; [done|]. cbn. set_solver.
  - rewrite lookup_insert_ne by done. eauto.
Qed.

(** Symbolic execution: unfold the methods and the monad, leaving the
    lookups in the entity registry and in the topics to case analysis. *)
Ltac exec :=
  cbv beta iota zeta delta
      [wp fst snd mbind M_bind mret M_ret gets modify raise assert print
       getattr setattr the_otherGripper the_otherHandle plug set_value
       signal register registrations set_registrations
       new_entity call assertEntityDoesNotExist _createOpPoint plugMatrixHomo
       plug_factors matrixHomoInverse matrixHomoProduct entityIfMatrixHomo
       addHppJointTopic addTfListenerTopic extendSignalGetters
       makeTfListenerDefaultValue addTrace _plugRobotLink _plugObjectLink
       _referenceSignal _createTaskAndGain _makeAbsolute _makeRelativeTask
       _makeAbsoluteBasedOnOther addVisualServoingTrace
       self_feature self_task self_gain self_oMjaDes_inv self_faMfbDes
       self_jbMfb self_wMog_inv
       set_feature set_task set_gain set_oMjaDes_inv set_faMfbDes set_jbMfb
       set_wMog_inv set__defaultValue set_roles set_tasks set_topics set_attrs
       set_entities set_wiring set_opPoints set_calls set_stdout
       feature task gain oMjaDes_inv faMfbDes jbMfb wMog_inv _defaultValue
       gripper handle otherGripper otherHandle tasks topics attrs entities
       wiring opPoints calls stdout length].

Ltac topic_some :=
  repeat first [ apply register_topic_here
               | apply lookup_insert_is_Some; left; reflexivity
               | apply register_topic_keep
               | apply insert_topic_keep ]; eauto.

(** The scrutinee on which the run is stuck. *)
Ltac head_stuck t :=
  lazymatch t with
  | match ?x with _ => _ end => head_stuck x
  | _ !! _ => t
  | decide _ => t
  | ?f _ => head_stuck f
  | _ => t
  end.

(** The signal is one of the operational points created before. *)
Ltac in_ops :=
  solve [ apply elem_of_singleton_2; reflexivity
        | apply elem_of_union_l; in_ops
        | apply elem_of_union_r; in_ops ].

Ltac step :=
  lazymatch goal with
  | |- ?G =>
      let h := head_stuck G in
      lazymatch h with
      | ?t !! ?k =>
          lazymatch type of t with
          | gmap string Topic =>
              let E := fresh "Htopic" in
              destruct (t !! k) eqn:E;
              [| exfalso; apply eq_None_not_Some in E; apply E; topic_some ]
          | _ => destruct (t !! k) eqn:?
          end
      | decide (?x ∈ ?S) =>
          let Hn := fresh "Hunbound" in
          destruct (decide (x ∈ S)) as [_|Hn];
          [| first [ exfalso; apply Hn; in_ops | clear Hn ] ]
      end
  end; exec.

Ltac sig_ne :=
  let E := fresh in
  let E1 := fresh in
  let E2 := fresh in
  intros E; apply pair_equal_spec in E as [E1 E2];
  first [ vm_compute in E2; discriminate E2
        | apply (inj (String.append _)) in E1; discriminate E1 ].

Ltac name_ne :=
  let E := fresh in intros E; apply (inj (String.append _)) in E; discriminate E.

Ltac lk :=
  repeat first [ rewrite lookup_insert_eq
               | rewrite lookup_insert_ne by (sig_ne || name_ne) ];
  reflexivity.

Ltac subscribed_solve :=
  repeat first
    [ apply subscribed_extend
    | apply subscribed_register; set_solver
    | eapply subscribed_extend_keep; [eassumption|]
    | apply subscribed_register_keep ].

(** ** What the builders leave behind *)

(** The desired relative pose: the product entity [N_faMfbDes], its four
    factors in order, and its output plugged into the feature.  The second
    and third factors are fed by the planner joint topics of the two links. *)
Definition reference_wired (N : string) (g h : OpFrame) (s : State) : Prop :=
  let F := N +:+ "_feature" in
  let P := N +:+ "_faMfbDes" in
  let I := N +:+ "_oMjaDes_inv" in
  feature (attrs s) = Some F ∧
  faMfbDes (attrs s) = Some P ∧
  entities s !! P = Some Multiply_of_matrixHomo ∧
  entities s !! I = Some Inverse_of_matrixHomo ∧
  (P, setSignalNumber 4) ∈ calls s ∧
  wiring s !! sin_ 0 P = Some (Constant (MatrixHomo (se3_inverse (lMf g)))) ∧
  wiring s !! sin_ 1 P = Some (Plugged (sout I)) ∧
  subscribed (topics s) (fullLink g) (Sig (sin I)) ∧
  subscribed (topics s) (fullLink h) (Sig (sin_ 2 P)) ∧
  wiring s !! sin_ 3 P = Some (Constant (MatrixHomo (lMf h))) ∧
  wiring s !! faMfbDes_ F = Some (Plugged (sout P)).

(** The registrations behind the two planner inputs of the reference: the
    builder registers the planner joint topic of the gripper link for the
    input of the inverse, registers the planner joint topic of the handle
    link, and extends the latter with the third input of the product. *)
Definition reference_registered (N : string) (g h : OpFrame) (s : State) : Prop :=
  let P := N +:+ "_faMfbDes" in
  let I := N +:+ "_oMjaDes_inv" in
  HppJointTopic (fullLink g) [Sig (sin I)] ∈ registrations s ∧
  HppJointTopic (fullLink h) [] ∈ registrations s ∧
  SignalGetters (fullLink h) (sin_ 2 P) ∈ registrations s.

(** The control task and its adaptive gain. *)
Definition task_and_gain (N : string) (s : State) : Prop :=
  let F := N +:+ "_feature" in
  let T := N +:+ "_task" in
  let G := N +:+ "_gain" in
  feature (attrs s) = Some F ∧
  task (attrs s) = Some T ∧
  gain (attrs s) = Some G ∧
  entities s !! T = Some SotTask ∧
  entities s !! G = Some SafeGainAdaptive ∧
  (∃ before, calls s = (before ++ [(T, add F);
                                   (G, computeParameters 0.9 0.1 0.3 1);
                                   (T, setWithDerivative false)])%list) ∧
  wiring s !! controlGain T = Some (Plugged (gain_ G)) ∧
  wiring s !! error G = Some (Plugged (error T)) ∧
  tasks s = [T].

(** The frames of the object are not touched by a builder. *)
Definition same_frames (s s' : State) : Prop :=
  gripper s' = gripper s ∧ handle s' = handle s ∧
  otherGripper s' = otherGripper s ∧ otherHandle s' = otherHandle s.

Definition built (N : string) (s s' : State) : Prop :=
  same_frames s s' ∧
  reference_wired N (gripper s) (handle s) s' ∧
  task_and_gain N s'.

Definition entity_exists (e : Exception) : Prop :=
  ∃ n, e = EntityAlreadyExists n.

(** [self.feature] after a run that raised in a builder: as it was, when the
    run stopped before the assignment, or the feature [F] of the builder. *)
Definition feature_after_failure (F : string) (s s' : State) : Prop :=
  feature (attrs s') = feature (attrs s) ∨ feature (attrs s') = Some F.

(** What [_plugRobotLink] leaves on [poseSignal]: the pose signal of the
    link on the robot entity, or, with measurement, the output of the
    selector [<link>_measured_wrt_world_safe]; the measured input of the
    product [<link>_measured_wrt_world] and the condition of the selector
    are registered with [addTfListenerTopic] under the topic
    [<link>_measured], from the camera frame to the frame [<link>_measured]. *)
Definition robot_pose (rob : SotRobot) (linkName : string) (poseSignal : Signal)
    (withMeasurement : bool) (s : State) : Prop :=
  if withMeasurement then
    let oMl := (linkName +:+ meas_suffix) +:+ "_wrt_world" in
    let if_ := (linkName +:+ meas_suffix) +:+ "_wrt_world_safe" in
    wiring s !! poseSignal = Some (Plugged (out if_))
    ∧ TfListenerTopic (linkName +:+ meas_suffix) (camera_frame rob)
        (linkName +:+ meas_suffix) [SigCond (sin_ 1 oMl) (condition if_)]
      ∈ registrations s
    ∧ subscribed (topics s) (linkName +:+ meas_suffix)
        (SigCond (sin_ 1 oMl) (condition if_))
  else
    wiring s !! poseSignal = Some (Plugged (dynamic_signal rob linkName)).

(** What [_plugObjectLink] leaves on [outSignal].  Without measurement the
    signal is handed to [extendSignalGetters] for the topic of the link,
    which the builder has registered with [addHppJointTopic].  With
    measurement it is plugged to the output of the selector
    [<link>_measuredwrt_world], whose measured side is registered with
    [addTfListenerTopic] (topic [<link>_measured], from the camera frame to
    the frame [<link>_measured]) and whose [else_] input is registered with
    [addHppJointTopic] under the topic of the link. *)
Definition object_pose (rob : SotRobot) (linkName : string) (outSignal : Signal)
    (withMeasurement : bool) (s : State) : Prop :=
  if withMeasurement then
    let oMl := (linkName +:+ meas_suffix) +:+ "_wrt_world" in
    let if_ := (linkName +:+ meas_suffix) +:+ "wrt_world" in
    wiring s !! outSignal = Some (Plugged (out if_))
    ∧ TfListenerTopic (linkName +:+ meas_suffix) (camera_frame rob)
        (linkName +:+ meas_suffix) [SigCond (sin_ 1 oMl) (condition if_)]
      ∈ registrations s
    ∧ HppJointTopic linkName [Sig (else_ if_)] ∈ registrations s
    ∧ subscribed (topics s) (linkName +:+ meas_suffix)
        (SigCond (sin_ 1 oMl) (condition if_))
    ∧ subscribed (topics s) linkName (Sig (else_ if_))
  else
    HppJointTopic linkName [] ∈ registrations s
    ∧ SignalGetters linkName outSignal ∈ registrations s
    ∧ subscribed (topics s) linkName (Sig outSignal).

(** The diagnostics of the two plug methods and of the derivative flag. *)
Definition robot_line (withMeasurement : bool) (linkName : string)
    : list string :=
  if withMeasurement then []
  else ["Plug robot link: no measument for " +:+ linkName].

Definition object_line (withMeasurement : bool) (linkName : string)
    : list string :=
  if withMeasurement then []
  else ["Plug object link: no measument for " +:+ linkName].

Definition derivative_line (withDerivative : bool) : list string :=
  if withDerivative
  then ["Relative pose constraint with derivative is not implemented yet."]
  else [].

(** What a failed build leaves alone: the task list, [self.task] and
    [self.gain]. *)
Definition no_task_touched (s s' : State) : Prop :=
  tasks s' = tasks s ∧ task (attrs s') = task (attrs s)
  ∧ gain (attrs s') = gain (attrs s).

Ltac calls_tail :=
  match goal with
  | |- ∃ before, (((?x ++ [_]) ++ [_]) ++ [_])%list = _ =>
      exists x; rewrite <- !app_assoc; reflexivity
  end.

Ltac failure :=
  first [ eexists; reflexivity
        | left; eexists; reflexivity
        | right; split_and!; reflexivity ].

Ltac leaf :=
  lazymatch goal with
  | |- (_ ∧ (_ = _ ∨ _ = _)) ∧ _ =>
      split;
      [split; [failure | first [left; reflexivity | right; reflexivity]]
      |split_and!; reflexivity]
  | |- _ => idtac
  end.

(** The call is in the log. *)
Ltac in_log :=
  solve [ apply list_elem_of_singleton; reflexivity
        | apply elem_of_app; right; apply list_elem_of_singleton; reflexivity
        | apply elem_of_app; left; in_log ].

Ltac printed :=
  cbn [app]; rewrite ?app_nil_r, <- ?app_assoc; cbn [app]; reflexivity.

Ltac registered :=
  repeat first [ by (apply lookup_insert_is_Some'; left)
               | apply lookup_insert_is_Some'; right ].

Ltac facts :=
  repeat match goal with |- _ ∧ _ => split end;
  try reflexivity;
  try calls_tail;
  try (subscribed_solve; fail);
  try in_log;
  try (registered; fail);
  try (printed; fail);
  try lk.

Lemma wp_mono {A} (m : M A) (Q Q' : Result A → State → Prop) s :
  wp m Q s → (∀ r s', Q r s' → Q' r s') → wp m Q' s.
Proof. unfold wp. destruct (m s). auto. Qed.

(** What each builder leaves on success, and on failure. *)
Definition absolute_graph (rob : SotRobot) (s s' : State) : Prop :=
  let N := _name [name (gripper s); fullName (handle s)] in
  let F := N +:+ "_feature" in
  built N s s' ∧
  wiring s' !! jaJja F
    = Some (Plugged (dynamic_signal rob ("J" +:+ link (gripper s)))) ∧
  wiring s' !! jbJjb F = Some (Constant (Zeros 6 (getDimension rob))) ∧
  wiring s' !! jbMfb_ F = Some (Constant (MatrixHomo (lMf (handle s)))) ∧
  reference_registered N (gripper s) (handle s) s'.

Definition absolute_inputs (rob : SotRobot) (wObj wGrip wDer : bool)
    (s s' : State) : Prop :=
  let N := _name [name (gripper s); fullName (handle s)] in
  let F := N +:+ "_feature" in
  is_Some (entities s' !! F) ∧
  wiring s' !! jaMfa F = Some (Constant (MatrixHomo (lMf (gripper s)))) ∧
  robot_pose rob (link (gripper s)) (oMja F) wGrip s' ∧
  object_pose rob (fullLink (handle s)) (oMjb F) wObj s' ∧
  stdout s'
  = (stdout s ++ robot_line wGrip (link (gripper s))
       ++ object_line wObj (fullLink (handle s))
       ++ derivative_line wDer)%list.

(** The name stems of the three builders. *)
Definition absolute_name (s : State) : string :=
  _name [name (gripper s); fullName (handle s)].

Lemma _makeAbsolute_run rob wObj wGrip wDer s :
  wp (_makeAbsolute rob wObj wGrip wDer)
    (λ r s',
       match r with
       | Ok _ => absolute_graph rob s s' ∧ absolute_inputs rob wObj wGrip wDer s s'
       | Raise e =>
           (entity_exists e ∧
            feature_after_failure (absolute_name s +:+ "_feature") s s') ∧
           no_task_touched s s'
       end) s.
Proof.
  destruct s as [g h og oh tk tp [a1 a2 a3 a4 a5 a6 a7 a8] en wi op ca rg out].
  unfold absolute_graph, absolute_inputs, absolute_name, built, same_frames,
    reference_wired, task_and_gain, reference_registered,
    feature_after_failure, no_task_touched, robot_pose, object_pose,
    robot_line, object_line, derivative_line.
  destruct wObj, wGrip, wDer; exec; repeat (step; leaf).
  all: facts.
Qed.

Lemma _makeAbsolute_spec rob wObj wGrip wDer s :
  wp (_makeAbsolute rob wObj wGrip wDer)
    (λ r s',
       match r with
       | Ok _ =>
           let F := absolute_name s +:+ "_feature" in
           built (absolute_name s) s s' ∧
           wiring s' !! jaJja F
             = Some (Plugged (dynamic_signal rob ("J" +:+ link (gripper s)))) ∧
           wiring s' !! jbJjb F = Some (Constant (Zeros 6 (getDimension rob))) ∧
           wiring s' !! jbMfb_ F = Some (Constant (MatrixHomo (lMf (handle s)))) ∧
           reference_registered (absolute_name s) (gripper s) (handle s) s'
       | Raise e =>
           entity_exists e ∧
           feature_after_failure (absolute_name s +:+ "_feature") s s'
       end) s.
Proof.
  eapply wp_mono; [apply _makeAbsolute_run|].
  intros [[]|e] s'; unfold absolute_graph, absolute_name; tauto.
Qed.

Lemma _makeAbsolute_inputs rob wObj wGrip wDer s :
  wp (_makeAbsolute rob wObj wGrip wDer)
    (λ r s',
       match r with
       | Ok _ =>
           let F := absolute_name s +:+ "_feature" in
           is_Some (entities s' !! F) ∧
           wiring s' !! jaMfa F = Some (Constant (MatrixHomo (lMf (gripper s)))) ∧
           robot_pose rob (link (gripper s)) (oMja F) wGrip s' ∧
           object_pose rob (fullLink (handle s)) (oMjb F) wObj s' ∧
           stdout s'
           = (stdout s ++ robot_line wGrip (link (gripper s))
                ++ object_line wObj (fullLink (handle s))
                ++ derivative_line wDer)%list
       | Raise e => no_task_touched s s'
       end) s.
Proof.
  eapply wp_mono; [apply _makeAbsolute_run|].
  intros [[]|e] s'; unfold absolute_inputs, absolute_name; tauto.
Qed.

Definition relative_name (s : State) (og oh : OpFrame) : string :=
  _name [name (gripper s); fullName (handle s); "relative"; name og; fullName oh].

(** The planned grasp of the handle by the other gripper:
    [otherGripper.lMf * otherHandle.lMf.inverse() * handle.lMf]. *)
Definition static_grasp (h og oh : OpFrame) : SE3 :=
  se3_mul (se3_mul (lMf og) (se3_inverse (lMf oh))) (lMf h).

Definition relative_graph (rob : SotRobot) (s s' : State) (og oh : OpFrame)
    : Prop :=
  let N := relative_name s og oh in
  let F := N +:+ "_feature" in
  built N s s' ∧
  wiring s' !! jaJja F = Some (Constant (Zeros 6 (getDimension rob))) ∧
  wiring s' !! jbJjb F = Some (Constant (Zeros 6 (getDimension rob))) ∧
  wiring s' !! jbMfb_ F
    = Some (Constant (MatrixHomo (static_grasp (handle s) og oh))) ∧
  reference_registered N (gripper s) (handle s) s'.

Definition relative_inputs (rob : SotRobot) (wGrip wOther wDer : bool)
    (s s' : State) (og oh : OpFrame) : Prop :=
  let N := relative_name s og oh in
  let F := N +:+ "_feature" in
  is_Some (entities s' !! F) ∧
  wiring s' !! jaMfa F = Some (Constant (MatrixHomo (lMf (gripper s)))) ∧
  robot_pose rob (link (gripper s)) (oMja F) wGrip s' ∧
  robot_pose rob (link og) (oMjb F) wOther s' ∧
  stdout s'
  = (stdout s ++ robot_line wGrip (link (gripper s))
       ++ robot_line wOther (link og)
       ++ derivative_line wDer)%list.

Lemma _makeRelativeTask_run rob wObj wGrip wOther wDer s og oh :
  otherGripper s = Some og → otherHandle s = Some oh →
  robotName (handle s) = robotName oh → link (handle s) = link oh →
  wp (_makeRelativeTask rob wObj wGrip wOther wDer)
    (λ r s',
       match r with
       | Ok _ =>
           relative_graph rob s s' og oh
           ∧ relative_inputs rob wGrip wOther wDer s s' og oh
       | Raise e =>
           (entity_exists e ∧
            feature_after_failure (relative_name s og oh +:+ "_feature") s s') ∧
           no_task_touched s s'
       end) s.
Proof.
  destruct s as [g h og' oh' tk tp [a1 a2 a3 a4 a5 a6 a7 a8] en wi op ca rg out].
  cbn [otherGripper otherHandle handle]. intros -> -> Hr Hl.
  unfold relative_graph, relative_inputs, relative_name, static_grasp, built,
    same_frames, reference_wired, task_and_gain, reference_registered,
    feature_after_failure, no_task_touched, robot_pose, robot_line,
    derivative_line.
  destruct wGrip, wOther, wDer; exec.
  all: rewrite !bool_decide_eq_true_2 by assumption; exec.
  all: repeat (step; leaf).
  all: facts.
Qed.

Lemma _makeRelativeTask_spec rob wObj wGrip wOther wDer s og oh :
  otherGripper s = Some og → otherHandle s = Some oh →
  robotName (handle s) = robotName oh → link (handle s) = link oh →
  wp (_makeRelativeTask rob wObj wGrip wOther wDer)
    (λ r s',
       match r with
       | Ok _ =>
           let F := relative_name s og oh +:+ "_feature" in
           built (relative_name s og oh) s s' ∧
           wiring s' !! jaJja F = Some (Constant (Zeros 6 (getDimension rob))) ∧
           wiring s' !! jbJjb F = Some (Constant (Zeros 6 (getDimension rob))) ∧
           wiring s' !! jbMfb_ F
             = Some (Constant (MatrixHomo (static_grasp (handle s) og oh))) ∧
           reference_registered (relative_name s og oh) (gripper s) (handle s) s'
       | Raise e =>
           entity_exists e ∧
           feature_after_failure (relative_name s og oh +:+ "_feature") s s'
       end) s.
Proof.
  intros Eog Eoh Hr Hl.
  eapply wp_mono; [by apply _makeRelativeTask_run|].
  intros [[]|e] s'; unfold relative_graph; tauto.
Qed.

Lemma _makeRelativeTask_inputs rob wObj wGrip wOther wDer s og oh :
  otherGripper s = Some og → otherHandle s = Some oh →
  robotName (handle s) = robotName oh → link (handle s) = link oh →
  wp (_makeRelativeTask rob wObj wGrip wOther wDer)
    (λ r s',
       match r with
       | Ok _ =>
           let F := relative_name s og oh +:+ "_feature" in
           is_Some (entities s' !! F) ∧
           wiring s' !! jaMfa F = Some (Constant (MatrixHomo (lMf (gripper s)))) ∧
           robot_pose rob (link (gripper s)) (oMja F) wGrip s' ∧
           robot_pose rob (link og) (oMjb F) wOther s' ∧
           stdout s'
           = (stdout s ++ robot_line wGrip (link (gripper s))
                ++ robot_line wOther (link og)
                ++ derivative_line wDer)%list
       | Raise e => no_task_touched s s'
       end) s.
Proof.
  intros Eog Eoh Hr Hl.
  eapply wp_mono; [by apply _makeRelativeTask_run|].
  intros [[]|e] s'; unfold relative_inputs; tauto.
Qed.

Definition based_name (s : State) (og oh : OpFrame) : string :=
  _name [fullName (gripper s); fullName (handle s); "based"; name og; fullName oh].

(** How [_makeAbsoluteBasedOnOther] feeds [jbMfb].  With
    [withMeasurementOfOtherGripperPos], from the product [N_jbMfb] of the
    output of the selector [N_defaultValue] (made by
    [makeTfListenerDefaultValue] with the constant
    [otherGripper.lMf * otherHandle.lMf.inverse()], and registered with the
    TF listener for the pose of the measured handle in the measured other
    gripper) and of [handle.lMf].  Without it, from the selector
    [N_jbMfb_cond]: its [then_] input is the product [N_jbMfb_meas] of the
    inverse ([<link>_inv]) of the robot signal of the link of the other
    gripper, of the robot signal of the camera frame, of an input registered
    with the TF listener (the measured handle in the camera frame) and of
    [handle.lMf]; its [else_] input is the planned grasp. *)
Definition measured_grasp (rob : SotRobot) (withMeasurementOfOtherGripperPos : bool)
    (N : string) (h og oh : OpFrame) (s : State) : Prop :=
  let F := N +:+ "_feature" in
  if withMeasurementOfOtherGripperPos then
    let J := N +:+ "_jbMfb" in
    let D := N +:+ "_defaultValue" in
    wiring s !! jbMfb_ F = Some (Plugged (sout J)) ∧
    (J, setSignalNumber 2) ∈ calls s ∧
    wiring s !! sin_ 0 J = Some (Plugged (out D)) ∧
    wiring s !! sin_ 1 J = Some (Constant (MatrixHomo (lMf h))) ∧
    wiring s !! else_ D
      = Some (Constant (MatrixHomo (se3_mul (lMf og) (se3_inverse (lMf oh))))) ∧
    subscribed (topics s)
      (fullLink oh +:+ meas_suffix +:+ "_wrt_" +:+ link og +:+ meas_suffix)
      (SigCond (then_ D) (condition D)) ∧
    TfListenerTopic
      (fullLink oh +:+ meas_suffix +:+ "_wrt_" +:+ link og +:+ meas_suffix)
      (link og +:+ meas_suffix) (fullLink oh +:+ meas_suffix)
      [SigCond (then_ D) (condition D)] ∈ registrations s
  else
    let Me := N +:+ "_jbMfb_meas" in
    let C := N +:+ "_jbMfb_cond" in
    let I := link og +:+ "_inv" in
    wiring s !! jbMfb_ F = Some (Plugged (out C)) ∧
    wiring s !! then_ C = Some (Plugged (sout Me)) ∧
    wiring s !! else_ C = Some (Constant (MatrixHomo (static_grasp h og oh))) ∧
    (Me, setSignalNumber 4) ∈ calls s ∧
    wiring s !! sin_ 0 Me = Some (Plugged (sout I)) ∧
    wiring s !! sin I = Some (Plugged (dynamic_signal rob (link og))) ∧
    wiring s !! sin_ 1 Me
      = Some (Plugged (dynamic_signal rob (camera_frame rob))) ∧
    wiring s !! sin_ 3 Me = Some (Constant (MatrixHomo (lMf h))) ∧
    subscribed (topics s) (fullLink oh +:+ meas_suffix)
      (SigCond (sin_ 2 Me) (condition C)) ∧
    TfListenerTopic (fullLink oh +:+ meas_suffix) (camera_frame rob)
      (fullLink h +:+ meas_suffix) [SigCond (sin_ 2 Me) (condition C)]
      ∈ registrations s.

Definition based_graph (rob : SotRobot) (wOther : bool) (s s' : State)
    (og oh : OpFrame) : Prop :=
  let N := based_name s og oh in
  let F := N +:+ "_feature" in
  built N s s' ∧
  wiring s' !! jaJja F = Some (Constant (Zeros 6 (getDimension rob))) ∧
  wiring s' !! jbJjb F
    = Some (Plugged (dynamic_signal rob ("J" +:+ link og))) ∧
  measured_grasp rob wOther N (handle s) og oh s' ∧
  reference_registered N (gripper s) (handle s) s'.

Definition based_inputs (rob : SotRobot) (wGrip wOther wDer : bool)
    (s s' : State) (og oh : OpFrame) : Prop :=
  let N := based_name s og oh in
  let F := N +:+ "_feature" in
  is_Some (entities s' !! F) ∧
  wiring s' !! jaMfa F = Some (Constant (MatrixHomo (lMf (gripper s)))) ∧
  object_pose rob (fullLink (gripper s)) (oMja F) wGrip s' ∧
  robot_pose rob (link og) (oMjb F) wOther s' ∧
  stdout s'
  = (stdout s ++ object_line wGrip (fullLink (gripper s))
       ++ robot_line wOther (link og)
       ++ derivative_line wDer)%list.

(** The one signal that [_makeAbsoluteBasedOnOther] reads without having
    created its operational point: the camera frame, when neither the
    gripper nor the other gripper is measured. *)
Definition camera_unbound (rob : SotRobot) (wGrip wOther : bool)
    (e : Exception) : Prop :=
  wGrip = false ∧ wOther = false ∧ e = UnboundFrameError (camera_frame rob).

Lemma _makeAbsoluteBasedOnOther_run rob wObj wGrip wOther wDer s og oh :
  otherGripper s = Some og → otherHandle s = Some oh →
  robotName (handle s) = robotName oh → link (handle s) = link oh →
  wp (_makeAbsoluteBasedOnOther rob wObj wGrip wOther wDer)
    (λ r s',
       match r with
       | Ok _ =>
           based_graph rob wOther s s' og oh
           ∧ based_inputs rob wGrip wOther wDer s s' og oh
       | Raise e =>
           ((entity_exists e ∨ camera_unbound rob wGrip wOther e) ∧
            feature_after_failure (based_name s og oh +:+ "_feature") s s') ∧
           no_task_touched s s'
       end) s.
Proof.
  destruct s as [g h og' oh' tk tp [a1 a2 a3 a4 a5 a6 a7 a8] en wi op ca rg out].
  cbn [otherGripper otherHandle handle]. intros -> -> Hr Hl.
  unfold based_graph, based_inputs, camera_unbound, based_name, static_grasp,
    measured_grasp, built, same_frames, reference_wired, task_and_gain,
    reference_registered, feature_after_failure, no_task_touched, robot_pose,
    object_pose, robot_line, object_line, derivative_line.
  destruct wGrip, wOther, wDer; exec.
  all: rewrite !bool_decide_eq_true_2 by assumption; exec.
  all: repeat (step; leaf).
  all: facts.
Qed.

Lemma _makeAbsoluteBasedOnOther_spec rob wObj wGrip wOther wDer s og oh :
  otherGripper s = Some og → otherHandle s = Some oh →
  robotName (handle s) = robotName oh → link (handle s) = link oh →
  wp (_makeAbsoluteBasedOnOther rob wObj wGrip wOther wDer)
    (λ r s',
       match r with
       | Ok _ =>
           let F := based_name s og oh +:+ "_feature" in
           built (based_name s og oh) s s' ∧
           wiring s' !! jaJja F = Some (Constant (Zeros 6 (getDimension rob))) ∧
           wiring s' !! jbJjb F
             = Some (Plugged (dynamic_signal rob ("J" +:+ link og))) ∧
           measured_grasp rob wOther (based_name s og oh) (handle s) og oh s' ∧
           reference_registered (based_name s og oh) (gripper s) (handle s) s'
       | Raise e =>
           (entity_exists e ∨ camera_unbound rob wGrip wOther e) ∧
           feature_after_failure (based_name s og oh +:+ "_feature") s s'
       end) s.
Proof.
  intros Eog Eoh Hr Hl.
  eapply wp_mono; [by apply _makeAbsoluteBasedOnOther_run|].
  intros [[]|e] s'; unfold based_graph; tauto.
Qed.

Lemma _makeAbsoluteBasedOnOther_inputs rob wObj wGrip wOther wDer s og oh :
  otherGripper s = Some og → otherHandle s = Some oh →
  robotName (handle s) = robotName oh → link (handle s) = link oh →
  wp (_makeAbsoluteBasedOnOther rob wObj wGrip wOther wDer)
    (λ r s',
       match r with
       | Ok _ =>
           let F := based_name s og oh +:+ "_feature" in
           is_Some (entities s' !! F) ∧
           wiring s' !! jaMfa F = Some (Constant (MatrixHomo (lMf (gripper s)))) ∧
           object_pose rob (fullLink (gripper s)) (oMja F) wGrip s' ∧
           robot_pose rob (link og) (oMjb F) wOther s' ∧
           stdout s'
           = (stdout s ++ object_line wGrip (fullLink (gripper s))
                ++ robot_line wOther (link og)
                ++ derivative_line wDer)%list
       | Raise e => no_task_touched s s'
       end) s.
Proof.
  intros Eog Eoh Hr Hl.
  eapply wp_mono; [by apply _makeAbsoluteBasedOnOther_run|].
  intros [[]|e] s'; unfold based_inputs; tauto.
Qed.

(** ** The assertions at the head of the two relative builders *)

Definition handles_match (h oh : OpFrame) : Prop :=
  robotName h = robotName oh ∧ link h = link oh.

Lemma _makeRelativeTask_head rob wObj wGrip wOther wDer s r s' :
  _makeRelativeTask rob wObj wGrip wOther wDer s = (r, s') →
  match otherHandle s with
  | None => r = Raise (AttributeError "otherHandle") ∧ s' = s
  | Some oh =>
      (¬ handles_match (handle s) oh ∧ r = Raise AssertionError ∧ s' = s)
      ∨ (handles_match (handle s) oh ∧
         match otherGripper s with
         | None => r = Raise (AttributeError "otherGripper") ∧ s' = s
         | Some og => True
         end)
  end.
Proof.
  destruct s as [g h og oh tk tp [a1 a2 a3 a4 a5 a6 a7 a8] en wi op ca rg out].
  unfold handles_match. cbn [otherGripper otherHandle handle].
  destruct oh as [oh|]; [|exec; by intros [= <- <-]].
  destruct (decide (robotName h = robotName oh)) as [Hr|Hr];
    [|exec; rewrite (bool_decide_eq_false_2 _ Hr); exec;
      intros [= <- <-]; left; tauto].
  destruct (decide (link h = link oh)) as [Hl|Hl];
    [|exec; rewrite (bool_decide_eq_true_2 _ Hr),
        (bool_decide_eq_false_2 _ Hl); exec;
      intros [= <- <-]; left; tauto].
  destruct og as [og|]; [tauto|].
  exec. rewrite (bool_decide_eq_true_2 _ Hr), (bool_decide_eq_true_2 _ Hl).
  exec. intros [= <- <-]. right; tauto.
Qed.

Lemma _makeAbsoluteBasedOnOther_head rob wObj wGrip wOther wDer s r s' :
  _makeAbsoluteBasedOnOther rob wObj wGrip wOther wDer s = (r, s') →
  match otherHandle s with
  | None => r = Raise (AttributeError "otherHandle") ∧ s' = s
  | Some oh =>
      (¬ handles_match (handle s) oh ∧ r = Raise AssertionError ∧ s' = s)
      ∨ (handles_match (handle s) oh ∧
         match otherGripper s with
         | None => r = Raise (AttributeError "otherGripper") ∧ s' = s
         | Some og => True
         end)
  end.
Proof.
  destruct s as [g h og oh tk tp [a1 a2 a3 a4 a5 a6 a7 a8] en wi op ca rg out].
  unfold handles_match. cbn [otherGripper otherHandle handle].
  destruct oh as [oh|]; [|exec; by intros [= <- <-]].
  destruct (decide (robotName h = robotName oh)) as [Hr|Hr];
    [|exec; rewrite (bool_decide_eq_false_2 _ Hr); exec;
      intros [= <- <-]; left; tauto].
  destruct (decide (link h = link oh)) as [Hl|Hl];
    [|exec; rewrite (bool_decide_eq_true_2 _ Hr),
        (bool_decide_eq_false_2 _ Hl); exec;
      intros [= <- <-]; left; tauto].
  destruct og as [og|]; [tauto|].
  exec. rewrite (bool_decide_eq_true_2 _ Hr), (bool_decide_eq_true_2 _ Hl).
  exec. intros [= <- <-]. right; tauto.
Qed.

(** ** What a run of [makeTasks] leaves behind *)

Lemma resolve_roles_others oh s :
  otherGripper (resolve_roles oh s) = otherGripper s
  ∧ otherHandle (resolve_roles oh s) = otherHandle s.
Proof. unfold resolve_roles. destruct (swap_needed _ _ _); done. Qed.

Definition jacobians (s' : State) (F : string) (ja jb : Source) : Prop :=
  wiring s' !! jaJja F = Some ja ∧ wiring s' !! jbJjb F = Some jb.

Lemma makeTasks_ok rob wObj wGrip wOther wDer s s' :
  makeTasks rob wObj wGrip wOther wDer s = (Ok tt, s') →
  all_enabled s = true ∧
  match strategy_of s with
  | NoOp => s' = nothing_done s
  | Absolute =>
      let F := absolute_name s +:+ "_feature" in
      built (absolute_name s) s s' ∧
      jacobians s' F
        (Plugged (dynamic_signal rob ("J" +:+ link (gripper s))))
        (Constant (Zeros 6 (getDimension rob))) ∧
      wiring s' !! jbMfb_ F = Some (Constant (MatrixHomo (lMf (handle s)))) ∧
      reference_registered (absolute_name s) (gripper s) (handle s) s'
  | Relative =>
      ∃ og oh, otherGripper s = Some og ∧ otherHandle s = Some oh ∧
        handles_match (handle s) oh ∧
        let F := relative_name s og oh +:+ "_feature" in
        built (relative_name s og oh) s s' ∧
        jacobians s' F
          (Constant (Zeros 6 (getDimension rob)))
          (Constant (Zeros 6 (getDimension rob))) ∧
        wiring s' !! jbMfb_ F
          = Some (Constant (MatrixHomo (static_grasp (handle s) og oh))) ∧
        reference_registered (relative_name s og oh) (gripper s) (handle s) s'
  | AbsoluteBasedOnOther =>
      ∃ og oh, otherGripper s = Some og ∧ otherHandle s = Some oh ∧
        let s0 := resolve_roles oh s in
        handles_match (handle s0) oh ∧
        let F := based_name s0 og oh +:+ "_feature" in
        built (based_name s0 og oh) s0 s' ∧
        jacobians s' F
          (Constant (Zeros 6 (getDimension rob)))
          (Plugged (dynamic_signal rob ("J" +:+ link og))) ∧
        measured_grasp rob wOther (based_name s0 og oh) (handle s0) og oh s' ∧
        reference_registered (based_name s0 og oh) (gripper s0) (handle s0) s'
  end.
Proof.
  intros E. unfold makeTasks in E.
  destruct (all_enabled s) eqn:En;
    [|rewrite makeTasks_with_disabled in E by done; discriminate].
  split; [done|]. rewrite makeTasks_with_dispatch in E by done.
  unfold jacobians. destruct (strategy_of s).
  - apply (wp_run _ _ _ _ _ (_makeAbsolute_spec rob wObj wGrip wDer s)) in E.
    cbv beta iota zeta in E |- *. tauto.
  - pose proof (_makeRelativeTask_head _ _ _ _ _ _ _ _ E) as Hh.
    destruct (otherHandle s) as [oh|] eqn:Eoh; [|by destruct Hh].
    destruct Hh as [(_ & [=] & _)|[Hm Hg]].
    destruct (otherGripper s) as [og|] eqn:Eog; [|by destruct Hg].
    exists og, oh. destruct Hm as [Hr Hl].
    apply (wp_run _ _ _ _ _
      (_makeRelativeTask_spec rob wObj wGrip wOther wDer s og oh
         Eog Eoh Hr Hl)) in E.
    unfold handles_match. cbv beta iota zeta in E |- *. tauto.
  - destruct (otherHandle s) as [oh|] eqn:Eoh; [|discriminate].
    destruct (resolve_roles_others oh s) as [Rg Rh].
    pose proof (_makeAbsoluteBasedOnOther_head _ _ _ _ _ _ _ _ E) as Hh.
    rewrite Eoh in Rh. rewrite Rh, Rg in Hh.
    destruct Hh as [(_ & [=] & _)|[Hm Hg]].
    destruct (otherGripper s) as [og|] eqn:Eog; [|by destruct Hg].
    exists og, oh. destruct Hm as [Hr Hl].
    apply (wp_run _ _ _ _ _
      (_makeAbsoluteBasedOnOther_spec rob wObj wGrip wOther wDer _ og oh
         Rg Rh Hr Hl)) in E.
    unfold handles_match. cbv beta iota zeta in E |- *. tauto.
  - by injection E as <-.
Qed.

(** ** Strategy selection *)

(** C1. When the gripper (and the other gripper, if any) is enabled,
    [makeTasks] runs the builder that the decision table gives for
    [(gripper.controllable, otherGripper present, otherGripper.controllable)]:
    controllable and no controllable other gripper, [_makeAbsolute];
    both controllable, [_makeRelativeTask]; only the other gripper
    controllable, [_makeAbsoluteBasedOnOther] (after the role swap);
    otherwise nothing.  This holds whatever the three builders are and for
    every value of the other arguments, so nothing else selects the branch. *)
Theorem makeTasks_follows_decision_table
    (A : SotRobot → bool → bool → bool → M unit)
    (R O : SotRobot → bool → bool → bool → bool → M unit)
    rob wObj wGrip wOther wDer s :
  all_enabled s = true →
  makeTasks_with A R O rob wObj wGrip wOther wDer s =
  match decision_table (controllable (gripper s)) (present (otherGripper s))
          (from_option controllable false (otherGripper s)) with
  | Absolute => A rob wObj wGrip wDer s
  | Relative => R rob wObj wGrip wOther wDer s
  | AbsoluteBasedOnOther =>
      match otherHandle s with
      | Some oh => O rob wObj wGrip wOther wDer (resolve_roles oh s)
      | None => (Raise (AttributeError "otherHandle"), s)
      end
  | NoOp => (Ok tt, nothing_done s)
  end.
Proof. apply makeTasks_with_dispatch. Qed.

(** C5. In the branch of [_makeAbsoluteBasedOnOther] the builder receives
    the object with gripper and handle exchanged exactly when the handle and
    [otherHandle] are on different robots while the gripper and [otherHandle]
    are on the same one; given the latter, "handle and [otherHandle] differ"
    is the same as "handle and gripper differ".  In the two other building
    branches the builder receives the object as it is. *)
Theorem roles_swapped_exactly_when
    (A : SotRobot → bool → bool → bool → M unit)
    (R O : SotRobot → bool → bool → bool → bool → M unit)
    rob wObj wGrip wOther wDer s oh :
  all_enabled s = true →
  otherHandle s = Some oh →
  let g := gripper s in
  let h := handle s in
  (strategy_of s = AbsoluteBasedOnOther →
     makeTasks_with A R O rob wObj wGrip wOther wDer s
     = O rob wObj wGrip wOther wDer
         (if swap_needed g h oh then swapped s else s))
  ∧ gripper (swapped s) = h ∧ handle (swapped s) = g
  ∧ (swap_needed g h oh = true
     ↔ robotName h ≠ robotName oh ∧ robotName g = robotName oh)
  ∧ (robotName g = robotName oh →
     (robotName h ≠ robotName oh ↔ robotName h ≠ robotName g))
  ∧ (strategy_of s = Relative →
     makeTasks_with A R O rob wObj wGrip wOther wDer s
     = R rob wObj wGrip wOther wDer s)
  ∧ (strategy_of s = Absolute →
     makeTasks_with A R O rob wObj wGrip wOther wDer s
     = A rob wObj wGrip wDer s).
Proof.
  intros En Eoh g h.
  pose proof (makeTasks_with_dispatch A R O rob wObj wGrip wOther wDer s En)
    as D.
  assert (Hs : swap_needed g h oh = true
     ↔ robotName h ≠ robotName oh ∧ robotName g = robotName oh).
  { unfold swap_needed.
    rewrite andb_true_iff, negb_true_iff, bool_decide_eq_false,
      bool_decide_eq_true. done. }
  split_and!; try done.
  - intros Es. by rewrite D, Es, Eoh.
  - intros Hg. by rewrite Hg.
  - intros Es. by rewrite D, Es.
  - intros Es. by rewrite D, Es.
Qed.

(** C8. When neither gripper is controllable, [makeTasks] only prints its
    diagnostic: the entity registry, the wiring, the calls, the topics, the
    attributes of the object and its task list are what they were; for an
    object fresh from [__init__] the task list is empty and [self.feature]
    does not exist. *)
Theorem noop_builds_nothing rob wObj wGrip wOther wDer s :
  all_enabled s = true →
  controllable (gripper s) = false →
  from_option controllable false (otherGripper s) = false →
  let s' := nothing_done s in
  makeTasks rob wObj wGrip wOther wDer s = (Ok tt, s')
  ∧ stdout s' = (stdout s ++ ["Both grippers are disabled so nothing can be done"])%list
  ∧ entities s' = entities s ∧ wiring s' = wiring s ∧ calls s' = calls s
  ∧ topics s' = topics s ∧ opPoints s' = opPoints s
  ∧ attrs s' = attrs s ∧ tasks s' = tasks s
  ∧ (∀ g h og w, s = __init__ g h og w →
       tasks s' = [] ∧ feature (attrs s') = None ∧ task (attrs s') = None
       ∧ gain (attrs s') = None).
Proof.
  intros En Hg Ho s'. split_and!; try done.
  - unfold makeTasks. rewrite makeTasks_with_dispatch by done.
    unfold strategy_of, decision_table. rewrite Hg, Ho.
    by rewrite andb_false_r.
  - by intros g h og w ->.
Qed.

(** ** The wiring of a built task *)

(** From a run of [makeTasks] that built a task: the name stem of the task,
    under which the object as the builder received it ([s0]) was built. *)
Lemma makeTasks_reference rob wObj wGrip wOther wDer s s' :
  makeTasks rob wObj wGrip wOther wDer s = (Ok tt, s') →
  strategy_of s ≠ NoOp →
  ∃ N s0, built N s0 s' ∧ reference_registered N (gripper s0) (handle s0) s'.
Proof.
  intros E Hs. apply makeTasks_ok in E as [_ E].
  destruct (strategy_of s); [| | |done].
  - destruct E as (B & _ & _ & R). eauto.
  - destruct E as (og & oh & _ & _ & _ & B & _ & _ & R). eauto.
  - destruct E as (og & oh & _ & _ & _ & B & _ & _ & R). eauto.
Qed.

Lemma makeTasks_built rob wObj wGrip wOther wDer s s' :
  makeTasks rob wObj wGrip wOther wDer s = (Ok tt, s') →
  strategy_of s ≠ NoOp →
  ∃ N s0, built N s0 s'.
Proof.
  intros E Hs.
  destruct (makeTasks_reference _ _ _ _ _ _ _ E Hs) as (N & s0 & B & _).
  eauto.
Qed.

(** C2. In every branch that builds a task, the signal plugged into
    [feature.faMfbDes] is the output of a product entity of four factors,
    in this order: the constant [gripper.lMf.inverse()]; the output of the
    inverse entity whose input the builder registers with
    [addHppJointTopic], under the planner joint topic [gripper.fullLink];
    an input that the builder hands to [extendSignalGetters] for the topic
    [handle.fullLink], which it registers with [addHppJointTopic]; the
    constant [handle.lMf].  Gripper and handle are those of the object when
    the builder ran (after the swap, if any). *)
Theorem faMfbDes_is_the_four_factor_product rob wObj wGrip wOther wDer s s' :
  makeTasks rob wObj wGrip wOther wDer s = (Ok tt, s') →
  strategy_of s ≠ NoOp →
  ∃ N, reference_wired N (gripper s') (handle s') s'
       ∧ reference_registered N (gripper s') (handle s') s'.
Proof.
  intros E Hs.
  destruct (makeTasks_reference _ _ _ _ _ _ _ E Hs)
    as (N & s0 & (F & W & _) & R).
  exists N. destruct F as (-> & -> & _). by split.
Qed.

(** C7. Every branch that builds a task creates the task [N_task] and adds
    the feature to it, creates the gain [N_gain] and calls
    [computeParameters(0.9, 0.1, 0.3, 1.)] on it, plugs [gain.gain] into
    [task.controlGain] and [task.error] into [gain.error]; the task list of
    the object is that one task. *)
Theorem task_and_gain_construction rob wObj wGrip wOther wDer s s' :
  makeTasks rob wObj wGrip wOther wDer s = (Ok tt, s') →
  strategy_of s ≠ NoOp →
  ∃ N, task_and_gain N s'.
Proof.
  intros E Hs.
  destruct (makeTasks_built _ _ _ _ _ _ _ E Hs) as (N & s0 & _ & _ & T).
  by exists N.
Qed.

(** C3, as the code has it.  In the Relative strategy [jbMfb] is the
    constant [otherGripper.lMf * otherHandle.lMf.inverse() * handle.lMf].
    In the AbsoluteBasedOnOther strategy it is plugged to a measurement, for
    both values of [withMeasurementOfOtherGripperPos]; the planned grasp, or
    its first two factors, is only the fallback of a selector: see
    [measured_grasp]. *)
Theorem jbMfb_estimate rob wObj wGrip wOther wDer s s' og oh :
  makeTasks rob wObj wGrip wOther wDer s = (Ok tt, s') →
  otherGripper s = Some og → otherHandle s = Some oh →
  (strategy_of s = Relative →
     ∀ F, feature (attrs s') = Some F →
       wiring s' !! jbMfb_ F
       = Some (Constant (MatrixHomo (static_grasp (handle s') og oh))))
  ∧ (strategy_of s = AbsoluteBasedOnOther →
     ∃ N, feature (attrs s') = Some (N +:+ "_feature")
          ∧ measured_grasp rob wOther N (handle s') og oh s').
Proof.
  intros E Eog Eoh. apply makeTasks_ok in E as [_ E].
  split; intros Es; rewrite Es in E.
  - destruct E as (og' & oh' & ? & ? & _ & (Fr & (Hf & _) & _) & _ & J & _).
    simplify_eq. intros F HF. rewrite Hf in HF. simplify_eq.
    destruct Fr as (_ & -> & _). done.
  - destruct E as (og' & oh' & ? & ? & _ & (Fr & (Hf & _) & _) & _ & J & _).
    simplify_eq. eexists; split; [done|].
    destruct Fr as (_ & -> & _). done.
Qed.

(** ** Assertions *)

(** The configuration that [makeTasks] and the builders assert: the
    gripper, and the other gripper if there is one, are enabled; the other
    grasp is a pair; and, for the two strategies that use it, [otherHandle]
    is on the robot and on the link of the handle that the builder receives
    (in the AbsoluteBasedOnOther strategy, the handle after the swap). *)
Definition preconditions (s : State) : Prop :=
  all_enabled s = true ∧
  present (otherHandle s) = present (otherGripper s) ∧
  match strategy_of s with
  | Relative =>
      ∀ oh, otherHandle s = Some oh → handles_match (handle s) oh
  | AbsoluteBasedOnOther =>
      ∀ oh, otherHandle s = Some oh →
        handles_match (handle (resolve_roles oh s)) oh
  | Absolute | NoOp => True
  end.

(** The name stem that the builder chosen by [makeTasks] uses. *)
Definition stem (s : State) : string :=
  match strategy_of s, otherGripper s, otherHandle s with
  | Absolute, _, _ => absolute_name s
  | Relative, Some og, Some oh => relative_name s og oh
  | AbsoluteBasedOnOther, Some og, Some oh =>
      based_name (resolve_roles oh s) og oh
  | _, _, _ => ""
  end.

Lemma strategy_needs_other s :
  strategy_of s = Relative ∨ strategy_of s = AbsoluteBasedOnOther →
  is_Some (otherGripper s).
Proof.
  unfold strategy_of, decision_table, present.
  destruct (otherGripper s); [eauto|].
  destruct (controllable (gripper s)); cbn; intros [|]; discriminate.
Qed.

Lemma resolve_roles_graph oh s :
  attrs (resolve_roles oh s) = attrs s
  ∧ tasks (resolve_roles oh s) = tasks s
  ∧ entities (resolve_roles oh s) = entities s.
Proof. unfold resolve_roles. by destruct (swap_needed _ _ _). Qed.

Lemma _makeRelativeTask_asserts rob wObj wGrip wOther wDer s oh :
  otherHandle s = Some oh → ¬ handles_match (handle s) oh →
  _makeRelativeTask rob wObj wGrip wOther wDer s = (Raise AssertionError, s).
Proof.
  intros Eoh Hm.
  destruct (_makeRelativeTask rob wObj wGrip wOther wDer s) as [r s'] eqn:E.
  apply _makeRelativeTask_head in E. rewrite Eoh in E.
  destruct E as [(_ & -> & ->)|[? _]]; done.
Qed.

Lemma _makeAbsoluteBasedOnOther_asserts rob wObj wGrip wOther wDer s oh :
  otherHandle s = Some oh → ¬ handles_match (handle s) oh →
  _makeAbsoluteBasedOnOther rob wObj wGrip wOther wDer s
  = (Raise AssertionError, s).
Proof.
  intros Eoh Hm.
  destruct (_makeAbsoluteBasedOnOther rob wObj wGrip wOther wDer s)
    as [r s'] eqn:E.
  apply _makeAbsoluteBasedOnOther_head in E. rewrite Eoh in E.
  destruct E as [(_ & -> & ->)|[? _]]; done.
Qed.

(** A run of [makeTasks] that raises stopped either before anything was
    built, at an [assert] or at a missing attribute, the preconditions being
    violated; or inside a builder, at a name that is taken or at the signal
    of the camera frame, after which [self.feature] may have been set but no
    task. *)
Lemma makeTasks_failure rob wObj wGrip wOther wDer s e s' :
  makeTasks rob wObj wGrip wOther wDer s = (Raise e, s') →
  (attrs s' = attrs s ∧ tasks s' = tasks s
   ∧ ((e = AssertionError ∧ ¬ preconditions s)
      ∨ ((∃ a, e = AttributeError a)
         ∧ present (otherHandle s) ≠ present (otherGripper s))))
  ∨ ((entity_exists e ∨ camera_unbound rob wGrip wOther e)
     ∧ feature_after_failure (stem s +:+ "_feature") s s'
     ∧ no_task_touched s s').
Proof.
  intros E. unfold makeTasks in E.
  destruct (all_enabled s) eqn:En.
  2: { rewrite makeTasks_with_disabled in E by done. injection E as <- <-.
       left. split_and!; [done..|]. left. split; [done|].
       intros (En' & _). congruence. }
  rewrite makeTasks_with_dispatch in E by done.
  unfold stem, preconditions. destruct (strategy_of s) eqn:Es.
  - right.
    apply (wp_run _ _ _ _ _ (_makeAbsolute_run rob wObj wGrip wDer s)) in E.
    cbv beta iota in E. tauto.
  - destruct (strategy_needs_other s) as [og Eog]; [by left|]. rewrite Eog.
    pose proof (_makeRelativeTask_head _ _ _ _ _ _ _ _ E) as Hh.
    destruct (otherHandle s) as [oh|] eqn:Eoh.
    + destruct Hh as [(Hn & [= ->] & ->)|[[Hr Hl] _]].
      * left. split_and!; [done..|]. left. split; [done|].
        intros (_ & _ & Hm). by apply Hn, Hm.
      * right.
        apply (wp_run _ _ _ _ _
          (_makeRelativeTask_run rob wObj wGrip wOther wDer s og oh
             Eog Eoh Hr Hl)) in E.
        cbv beta iota in E. tauto.
    + destruct Hh as [[= ->] ->]. left. split_and!; [done..|]. right.
      split; [eauto|done].
  - destruct (strategy_needs_other s) as [og Eog]; [by right|]. rewrite Eog.
    destruct (otherHandle s) as [oh|] eqn:Eoh.
    + destruct (resolve_roles_others oh s) as [Rg Rh].
      destruct (resolve_roles_graph oh s) as (Ra & Rt & _).
      rewrite Eog in Rg. rewrite Eoh in Rh.
      pose proof (_makeAbsoluteBasedOnOther_head _ _ _ _ _ _ _ _ E) as Hh.
      rewrite Rh in Hh.
      destruct Hh as [(Hn & [= ->] & ->)|[[Hr Hl] _]].
      * left. split_and!; [done..|]. left. split; [done|].
        intros (_ & _ & Hm). by apply Hn, Hm.
      * right.
        apply (wp_run _ _ _ _ _
          (_makeAbsoluteBasedOnOther_run rob wObj wGrip wOther wDer _ og oh
             Rg Rh Hr Hl)) in E.
        cbv beta iota in E.
        unfold feature_after_failure, no_task_touched in *.
        rewrite Ra, Rt in E. tauto.
    + injection E as <- <-. left. split_and!; [done..|]. right.
      split; [eauto|done].
  - discriminate.
Qed.

(** ** A name that is taken *)

Lemma _makeAbsolute_taken rob wObj wGrip wDer s :
  is_Some (entities s !! (absolute_name s +:+ "_feature")) →
  _makeAbsolute rob wObj wGrip wDer s
  = (Raise (EntityAlreadyExists (absolute_name s +:+ "_feature")), s).
Proof.
  destruct s as [g h og oh tk tp at_ en wi op ca rg out].
  unfold absolute_name. cbn [entities gripper handle]. intros [c Hc].
  exec.
  destruct (en !! _) eqn:E; [reflexivity|congruence].
Qed.

Lemma _makeRelativeTask_taken rob wObj wGrip wOther wDer s og oh :
  otherGripper s = Some og → otherHandle s = Some oh →
  handles_match (handle s) oh →
  is_Some (entities s !! (relative_name s og oh +:+ "_feature")) →
  _makeRelativeTask rob wObj wGrip wOther wDer s
  = (Raise (EntityAlreadyExists (relative_name s og oh +:+ "_feature")), s).
Proof.
  destruct s as [g h og' oh' tk tp at_ en wi op ca rg out].
  unfold relative_name, handles_match.
  cbn [entities gripper handle otherGripper otherHandle].
  intros -> -> [Hr Hl] [c Hc]. exec.
  rewrite !bool_decide_eq_true_2 by assumption. exec.
  destruct (en !! _) eqn:E; [reflexivity|congruence].
Qed.

Lemma _makeAbsoluteBasedOnOther_taken rob wObj wGrip wOther wDer s og oh :
  otherGripper s = Some og → otherHandle s = Some oh →
  handles_match (handle s) oh →
  is_Some (entities s !! (based_name s og oh +:+ "_feature")) →
  _makeAbsoluteBasedOnOther rob wObj wGrip wOther wDer s
  = (Raise (EntityAlreadyExists (based_name s og oh +:+ "_feature")), s).
Proof.
  destruct s as [g h og' oh' tk tp at_ en wi op ca rg out].
  unfold based_name, handles_match.
  cbn [entities gripper handle otherGripper otherHandle].
  intros -> -> [Hr Hl] [c Hc]. exec.
  rewrite !bool_decide_eq_true_2 by assumption. exec.
  destruct (en !! _) eqn:E; [reflexivity|congruence].
Qed.

(** C6, as the code has it.  [makeTasks] fails an [assert] when the gripper
    or the other gripper is disabled.  The two relative builders fail an
    [assert] when [otherHandle] is on another robot or another link than the
    handle they receive: in the Relative strategy that is the handle of the
    object, in the AbsoluteBasedOnOther strategy the handle after the role
    swap.  When the preconditions hold, no [assert] statement of this file
    fails; the run can still fail in [assertEntityDoesNotExist], as it does
    when the name of the feature is taken. *)
Theorem makeTasks_assertions rob wObj wGrip wOther wDer s :
  (all_enabled s = false →
     makeTasks rob wObj wGrip wOther wDer s = (Raise AssertionError, s))
  ∧ (∀ oh, otherHandle s = Some oh → ¬ handles_match (handle s) oh →
       _makeRelativeTask rob wObj wGrip wOther wDer s
         = (Raise AssertionError, s)
       ∧ _makeAbsoluteBasedOnOther rob wObj wGrip wOther wDer s
         = (Raise AssertionError, s))
  ∧ (all_enabled s = true → ∀ oh, otherHandle s = Some oh →
       (strategy_of s = Relative → ¬ handles_match (handle s) oh →
          makeTasks rob wObj wGrip wOther wDer s = (Raise AssertionError, s))
       ∧ (strategy_of s = AbsoluteBasedOnOther →
          ¬ handles_match (handle (resolve_roles oh s)) oh →
          makeTasks rob wObj wGrip wOther wDer s
          = (Raise AssertionError, resolve_roles oh s)))
  ∧ (preconditions s → ∀ e s',
       makeTasks rob wObj wGrip wOther wDer s = (Raise e, s') →
       e ≠ AssertionError)
  ∧ (preconditions s → strategy_of s ≠ NoOp →
       is_Some (entities s !! (stem s +:+ "_feature")) →
       (makeTasks rob wObj wGrip wOther wDer s).1
       = Raise (EntityAlreadyExists (stem s +:+ "_feature"))).
Proof.
  split_and!.
  - apply makeTasks_with_disabled.
  - intros oh Eoh Hm. split.
    + by eapply _makeRelativeTask_asserts.
    + by eapply _makeAbsoluteBasedOnOther_asserts.
  - intros En oh Eoh. unfold makeTasks.
    rewrite makeTasks_with_dispatch by done. split; intros -> Hm.
    + by eapply _makeRelativeTask_asserts.
    + rewrite Eoh. eapply _makeAbsoluteBasedOnOther_asserts; [|done].
      destruct (resolve_roles_others oh s) as [_ ->]. done.
  - intros P e s' E ->.
    apply makeTasks_failure in E
      as [(_ & _ & [[_ N]|[[a [=]] _]])|([[n [=]]|(_ & _ & [=])] & _)].
    by apply N.
  - intros (En & Hwf & Hm) Hs. unfold makeTasks, stem in *.
    rewrite makeTasks_with_dispatch by done.
    destruct (strategy_of s) eqn:Es; [| | |done].
    + intros Hx. by rewrite _makeAbsolute_taken.
    + destruct (strategy_needs_other s) as [og Eog]; [by left|].
      rewrite Eog in *. destruct (otherHandle s) as [oh|] eqn:Eoh; [|done].
      intros Hx. rewrite (_makeRelativeTask_taken _ _ _ _ _ _ og oh); auto.
    + destruct (strategy_needs_other s) as [og Eog]; [by right|].
      rewrite Eog in *. destruct (otherHandle s) as [oh|] eqn:Eoh; [|done].
      destruct (resolve_roles_others oh s) as [Rg Rh].
      destruct (resolve_roles_graph oh s) as (_ & _ & Re).
      rewrite Eog in Rg. rewrite Eoh in Rh.
      intros Hx. rewrite <- Re in Hx.
      rewrite (_makeAbsoluteBasedOnOther_taken _ _ _ _ _ _ og oh); auto.
Qed.

(** ** The trace interface *)

(** C10, as the code has it.  [self.feature] does not exist on a fresh
    object, and [addVisualServoingTrace] on an object without it raises an
    attribute error and changes nothing; on an object that has it, the trace
    interface returns.  A run of [makeTasks] that stops at an [assert] or
    takes the branch that builds nothing leaves [self.feature] as it was; a
    run that built a task leaves the feature and the task of the builder.
    A run that raises inside a builder leaves the task list as it was, and
    [self.feature] either as it was or set to the feature of the builder:
    the builders assign it before the rest of the build. *)
Theorem feature_only_after_build rob wObj wGrip wOther wDer tracer s r s' :
  (∀ g h og w, feature (attrs (__init__ g h og w)) = None)
  ∧ (feature (attrs s) = None →
       addVisualServoingTrace tracer s = (Raise (AttributeError "feature"), s))
  ∧ (is_Some (feature (attrs s)) →
       (addVisualServoingTrace tracer s).1 = Ok tt)
  ∧ (makeTasks rob wObj wGrip wOther wDer s = (r, s') →
       (all_enabled s = false ∨ strategy_of s = NoOp
        ∨ r = Raise AssertionError →
          feature (attrs s') = feature (attrs s))
       ∧ (r = Ok tt → strategy_of s ≠ NoOp →
          ∃ F, feature (attrs s') = Some F
               ∧ (addVisualServoingTrace tracer s').1 = Ok tt)
       ∧ (∀ e, r = Raise e →
          tasks s' = tasks s
          ∧ (feature (attrs s') = feature (attrs s)
             ∨ feature (attrs s') = Some (stem s +:+ "_feature")))).
Proof.
  assert (T : ∀ s0, is_Some (feature (attrs s0)) →
                (addVisualServoingTrace tracer s0).1 = Ok tt).
  { intros [g h og oh tk tp [a1 a2 a3 a4 a5 a6 a7 a8] en wi op ca rg out].
    cbn [attrs feature]. intros [F ->]. reflexivity. }
  split_and!.
  - done.
  - destruct s as [g h og oh tk tp [a1 a2 a3 a4 a5 a6 a7 a8] en wi op ca rg out].
    cbn [attrs feature]. intros ->. reflexivity.
  - apply T.
  - intros E. split_and!.
    + intros [En|[Es| ->]].
      * unfold makeTasks in E.
        rewrite makeTasks_with_disabled in E by done. by injection E as _ <-.
      * unfold makeTasks in E. destruct (all_enabled s) eqn:En.
        -- rewrite makeTasks_with_dispatch, Es in E by done.
           by injection E as _ <-.
        -- rewrite makeTasks_with_disabled in E by done.
           by injection E as _ <-.
      * apply makeTasks_failure in E
          as [(-> & _)|([[n [=]]|(_ & _ & [=])] & _)].
        done.
    + intros -> Hs.
      destruct (makeTasks_built _ _ _ _ _ _ _ E Hs)
        as (N & s0 & _ & (Hf & _) & _).
      eexists; split; [done|]. apply T. by rewrite Hf.
    + intros e ->.
      apply makeTasks_failure in E
        as [(-> & -> & _)|(_ & Hf & (-> & _))]; [by auto|].
      split; [done|exact Hf].
Qed.

(** ** The derivative flag *)

Definition warned (s : State) : State :=
  set_stdout
    (stdout s
     ++ ["Relative pose constraint with derivative is not implemented yet."])%list
    s.

(** [m_on] does what [m_off] does and, when [m_off] succeeds, prints the
    warning on top. *)
Definition derivative_sim (m_on m_off : M unit) : Prop :=
  ∀ s, match m_off s with
       | (Ok _, s1) => m_on s = (Ok tt, warned s1)
       | (Raise e, s1) => m_on s = (Raise e, s1)
       end.

Lemma derivative_sim_bind {A} (m : M A) (f_on f_off : A → M unit) :
  (∀ a, derivative_sim (f_on a) (f_off a)) →
  derivative_sim (m ≫= f_on) (m ≫= f_off).
Proof.
  intros Hf s. unfold mbind, M_bind.
  destruct (m s) as [[a|e] s1]; [apply Hf | reflexivity].
Qed.

Lemma derivative_sim_tail N :
  derivative_sim
    (_createTaskAndGain N;;
     print "Relative pose constraint with derivative is not implemented yet.";;
     t ← self_task; call t (setWithDerivative false);;
     t ← self_task; modify (set_tasks [t]))
    (_createTaskAndGain N;;
     mret tt;;
     t ← self_task; call t (setWithDerivative false);;
     t ← self_task; modify (set_tasks [t])).
Proof.
  intros s. unfold warned.
  destruct s as [g h og oh tk tp [[f|] a2 a3 a4 a5 a6 a7 a8] en wi op ca rg out];
    exec; reflexivity.
Qed.

Ltac derivative_sim_run :=
  cbv beta iota zeta;
  repeat lazymatch goal with
    | |- derivative_sim (_createTaskAndGain _ ≫= _) _ =>
        apply derivative_sim_tail
    | |- derivative_sim (_ ≫= _) (_ ≫= _) =>
        apply derivative_sim_bind; intros
    end.

Lemma _makeAbsolute_derivative rob wObj wGrip :
  derivative_sim (_makeAbsolute rob wObj wGrip true)
    (_makeAbsolute rob wObj wGrip false).
Proof. unfold _makeAbsolute. derivative_sim_run. Qed.

Lemma _makeRelativeTask_derivative rob wObj wGrip wOther :
  derivative_sim (_makeRelativeTask rob wObj wGrip wOther true)
    (_makeRelativeTask rob wObj wGrip wOther false).
Proof. unfold _makeRelativeTask. derivative_sim_run. Qed.

Lemma _makeAbsoluteBasedOnOther_derivative rob wObj wGrip wOther :
  derivative_sim (_makeAbsoluteBasedOnOther rob wObj wGrip wOther true)
    (_makeAbsoluteBasedOnOther rob wObj wGrip wOther false).
Proof. unfold _makeAbsoluteBasedOnOther. derivative_sim_run. Qed.

(** C9. In every branch that builds a task, the run with [withDerivative]
    set does what the run without it does and prints one warning on top: it
    succeeds when the other does, with the same object and the same graph,
    and fails with the same exception otherwise.  The last call of the build
    is [task.setWithDerivative(False)] in both. *)
Theorem derivative_flag_only_warns rob wObj wGrip wOther s :
  strategy_of s ≠ NoOp →
  match makeTasks rob wObj wGrip wOther false s with
  | (Ok _, s1) =>
      makeTasks rob wObj wGrip wOther true s = (Ok tt, warned s1)
      ∧ ∃ T before, task (attrs s1) = Some T ∧ tasks s1 = [T]
          ∧ calls (warned s1) = calls s1
          ∧ calls s1 = (before ++ [(T, setWithDerivative false)])%list
  | (Raise e, s1) => makeTasks rob wObj wGrip wOther true s = (Raise e, s1)
  end.
Proof.
  intros Hs.
  assert (Hsim : match makeTasks rob wObj wGrip wOther false s with
    | (Ok _, s1) => makeTasks rob wObj wGrip wOther true s = (Ok tt, warned s1)
    | (Raise e, s1) => makeTasks rob wObj wGrip wOther true s = (Raise e, s1)
    end).
  { unfold makeTasks. destruct (all_enabled s) eqn:En.
    - rewrite !makeTasks_with_dispatch by done.
      destruct (strategy_of s); [| | |done].
      + apply _makeAbsolute_derivative.
      + apply _makeRelativeTask_derivative.
      + destruct (otherHandle s);
          [apply _makeAbsoluteBasedOnOther_derivative|done].
    - by rewrite !makeTasks_with_disabled. }
  destruct (makeTasks rob wObj wGrip wOther false s) as [[[]|e] s1] eqn:E;
    [|done].
  split; [done|].
  destruct (makeTasks_built _ _ _ _ _ _ _ E Hs)
    as (N & s0 & _ & _ & (_ & Ht & _ & _ & _ & (before & Hc) & _ & _ & Hl)).
  exists (N +:+ "_task"),
    (before ++ [(N +:+ "_task", add (N +:+ "_feature"));
                (N +:+ "_gain", computeParameters 0.9 0.1 0.3 1)])%list.
  split_and!; try done. rewrite Hc, <- app_assoc. done.
Qed.

(** ** Flags that a strategy does not read *)

(** X1. [withMeasurementOfObjectPos] is read by [_makeAbsolute] only: in
    every other case ([_makeRelativeTask], [_makeAbsoluteBasedOnOther], the
    branch that builds nothing, a failed [assert]) the run of [makeTasks] is
    the same for both values of the flag. *)
Theorem object_measurement_flag_only_in_absolute
    rob wObj wObj' wGrip wOther wDer s :
  strategy_of s ≠ Absolute →
  makeTasks rob wObj wGrip wOther wDer s
  = makeTasks rob wObj' wGrip wOther wDer s.
Proof.
  intros Hs. unfold makeTasks. destruct (all_enabled s) eqn:En.
  - rewrite !makeTasks_with_dispatch by done.
    destruct (strategy_of s); try done; destruct (otherHandle s); reflexivity.
  - by rewrite !makeTasks_with_disabled.
Qed.

(** X2. [withMeasurementOfOtherGripperPos] is not passed to [_makeAbsolute]:
    when [makeTasks] takes that builder, or builds nothing, the run is the
    same for both values of the flag. *)
Theorem other_gripper_measurement_flag_not_in_absolute
    rob wObj wGrip wOther wOther' wDer s :
  strategy_of s = Absolute ∨ strategy_of s = NoOp →
  makeTasks rob wObj wGrip wOther wDer s
  = makeTasks rob wObj wGrip wOther' wDer s.
Proof.
  intros Hs. unfold makeTasks. destruct (all_enabled s) eqn:En.
  - rewrite !makeTasks_with_dispatch by done.
    by destruct Hs as [-> | ->].
  - by rewrite !makeTasks_with_disabled.
Qed.

(** ** The role swap *)

(** X3. In the branch of [_makeAbsoluteBasedOnOther], the builder receives
    the two frames of the object, exchanged or not, and the frame it receives
    as the handle is on the robot of [otherHandle] exactly when one of the
    two frames is; the state it receives no longer meets the condition of the
    swap. *)
Theorem swap_puts_the_frame_of_the_object_as_handle
    (A : SotRobot → bool → bool → bool → M unit)
    (R O : SotRobot → bool → bool → bool → bool → M unit)
    rob wObj wGrip wOther wDer s oh :
  all_enabled s = true →
  strategy_of s = AbsoluteBasedOnOther →
  otherHandle s = Some oh →
  ∃ s0,
    makeTasks_with A R O rob wObj wGrip wOther wDer s
    = O rob wObj wGrip wOther wDer s0
    ∧ ((gripper s0 = gripper s ∧ handle s0 = handle s)
       ∨ (gripper s0 = handle s ∧ handle s0 = gripper s))
    ∧ (robotName (handle s0) = robotName oh
       ↔ robotName (handle s) = robotName oh
         ∨ robotName (gripper s) = robotName oh)
    ∧ swap_needed (gripper s0) (handle s0) oh = false.
Proof.
  intros En Es Eoh. exists (resolve_roles oh s).
  rewrite makeTasks_with_dispatch, Es, Eoh by done.
  split; [done|]. unfold resolve_roles, swap_needed.
  destruct (decide (robotName (handle s) = robotName oh)) as [Hh|Hh];
    destruct (decide (robotName (gripper s) = robotName oh)) as [Hg|Hg].
  all: rewrite ?(bool_decide_eq_true_2 _ Hh), ?(bool_decide_eq_false_2 _ Hh),
         ?(bool_decide_eq_true_2 _ Hg), ?(bool_decide_eq_false_2 _ Hg);
       cbn [negb andb swapped gripper handle set_roles].
  all: rewrite ?(bool_decide_eq_true_2 _ Hh), ?(bool_decide_eq_false_2 _ Hh),
         ?(bool_decide_eq_true_2 _ Hg), ?(bool_decide_eq_false_2 _ Hg);
       cbn [negb andb]; split_and!; tauto.
Qed.

(** ** Names and Jacobians of a built task *)

(** The entities of a task built under the name stem [N]. *)
Definition named (N : string) (s : State) : Prop :=
  feature (attrs s) = Some (N +:+ "_feature")
  ∧ task (attrs s) = Some (N +:+ "_task")
  ∧ gain (attrs s) = Some (N +:+ "_gain")
  ∧ faMfbDes (attrs s) = Some (N +:+ "_faMfbDes")
  ∧ tasks s = [N +:+ "_task"].

Lemma built_named N s0 s' : built N s0 s' → named N s'.
Proof.
  intros (_ & (Hf & Hp & _) & (_ & Ht & Hg & _ & _ & _ & _ & _ & Hl)).
  by split_and!.
Qed.

(** X4. The entities of a built task are named after the frames of the
    object as they are after the run: [_name(gripper.name, handle.fullName)]
    for [_makeAbsolute], the same followed by ["relative"],
    [otherGripper.name] and [otherHandle.fullName] for [_makeRelativeTask],
    and [_name(gripper.fullName, handle.fullName, "based", otherGripper.name,
    otherHandle.fullName)] for [_makeAbsoluteBasedOnOther]; the feature, the
    task, the gain and the reference product carry the suffixes [_feature],
    [_task], [_gain] and [_faMfbDes]. *)
Theorem entities_are_named_after_the_frames rob wObj wGrip wOther wDer s s' :
  makeTasks rob wObj wGrip wOther wDer s = (Ok tt, s') →
  match strategy_of s with
  | Absolute => named (_name [name (gripper s'); fullName (handle s')]) s'
  | Relative =>
      ∃ og oh, otherGripper s' = Some og ∧ otherHandle s' = Some oh ∧
        named (_name [name (gripper s'); fullName (handle s'); "relative";
                      name og; fullName oh]) s'
  | AbsoluteBasedOnOther =>
      ∃ og oh, otherGripper s' = Some og ∧ otherHandle s' = Some oh ∧
        named (_name [fullName (gripper s'); fullName (handle s'); "based";
                      name og; fullName oh]) s'
  | NoOp => attrs s' = attrs s ∧ tasks s' = tasks s
  end.
Proof.
  intros E. apply makeTasks_ok in E as [_ E].
  destruct (strategy_of s).
  - destruct E as (B & _). pose proof (built_named _ _ _ B) as Hn.
    destruct B as ((-> & -> & _) & _). exact Hn.
  - destruct E as (og & oh & Eog & Eoh & _ & B & _).
    pose proof (built_named _ _ _ B) as Hn.
    destruct B as ((-> & -> & -> & ->) & _). by exists og, oh.
  - destruct E as (og & oh & Eog & Eoh & _ & B & _).
    pose proof (built_named _ _ _ B) as Hn.
    destruct (resolve_roles_others oh s) as [Rg Rh].
    destruct B as ((-> & -> & -> & ->) & _).
    exists og, oh. by rewrite Rg, Rh.
  - by subst s'.
Qed.

(** X5. The Jacobian inputs of the two absolute builders: in
    [_makeAbsolute], [jaJja] is plugged to the Jacobian signal of the gripper
    link and [jbJjb] is the zero matrix of 6 rows and as many columns as the
    robot has degrees of freedom; in [_makeAbsoluteBasedOnOther], [jaJja] is
    that zero matrix and [jbJjb] is plugged to the Jacobian signal of the
    link of the other gripper.  This holds for every value of the
    measurement flags. *)
Theorem jacobians_of_the_absolute_builders rob wObj wGrip wOther wDer s s' F :
  makeTasks rob wObj wGrip wOther wDer s = (Ok tt, s') →
  feature (attrs s') = Some F →
  (strategy_of s = Absolute →
     wiring s' !! jaJja F
     = Some (Plugged (dynamic_signal rob ("J" +:+ link (gripper s'))))
     ∧ wiring s' !! jbJjb F = Some (Constant (Zeros 6 (getDimension rob))))
  ∧ (strategy_of s = AbsoluteBasedOnOther →
     ∀ og, otherGripper s' = Some og →
       wiring s' !! jaJja F = Some (Constant (Zeros 6 (getDimension rob)))
       ∧ wiring s' !! jbJjb F
         = Some (Plugged (dynamic_signal rob ("J" +:+ link og)))).
Proof.
  intros E HF. apply makeTasks_ok in E as [_ E].
  split; intros Es; rewrite Es in E.
  - destruct E as (((Eg & _) & (Hf & _) & _) & (Ja & Jb) & _).
    rewrite Hf in HF. simplify_eq. by rewrite Eg.
  - destruct E as (og & oh & Eog & Eoh & _ & ((_ & _ & Eog' & _) & (Hf & _) & _)
                   & (Ja & Jb) & _).
    destruct (resolve_roles_others oh s) as [Rg _].
    rewrite Hf in HF. simplify_eq. intros og' Hog'.
    rewrite Eog', Rg, Eog in Hog'. by simplify_eq.
Qed.

(** ** The pose inputs of the feature *)

(** The pose inputs after a run of [makeTasks] that built a task; [s0] is
    the object as the builder received it. *)
Lemma makeTasks_inputs rob wObj wGrip wOther wDer s s' :
  makeTasks rob wObj wGrip wOther wDer s = (Ok tt, s') →
  match strategy_of s with
  | NoOp => True
  | Absolute =>
      let F := absolute_name s +:+ "_feature" in
      is_Some (entities s' !! F) ∧
      wiring s' !! jaMfa F = Some (Constant (MatrixHomo (lMf (gripper s)))) ∧
      robot_pose rob (link (gripper s)) (oMja F) wGrip s' ∧
      object_pose rob (fullLink (handle s)) (oMjb F) wObj s' ∧
      stdout s'
      = (stdout s ++ robot_line wGrip (link (gripper s))
           ++ object_line wObj (fullLink (handle s))
           ++ derivative_line wDer)%list
  | Relative =>
      ∃ og oh, otherGripper s = Some og ∧ otherHandle s = Some oh ∧
        let F := relative_name s og oh +:+ "_feature" in
        is_Some (entities s' !! F) ∧
        wiring s' !! jaMfa F = Some (Constant (MatrixHomo (lMf (gripper s)))) ∧
        robot_pose rob (link (gripper s)) (oMja F) wGrip s' ∧
        robot_pose rob (link og) (oMjb F) wOther s' ∧
        stdout s'
        = (stdout s ++ robot_line wGrip (link (gripper s))
             ++ robot_line wOther (link og)
             ++ derivative_line wDer)%list
  | AbsoluteBasedOnOther =>
      ∃ og oh, otherGripper s = Some og ∧ otherHandle s = Some oh ∧
        let s0 := resolve_roles oh s in
        let F := based_name s0 og oh +:+ "_feature" in
        is_Some (entities s' !! F) ∧
        wiring s' !! jaMfa F = Some (Constant (MatrixHomo (lMf (gripper s0)))) ∧
        object_pose rob (fullLink (gripper s0)) (oMja F) wGrip s' ∧
        robot_pose rob (link og) (oMjb F) wOther s' ∧
        stdout s'
        = (stdout s0 ++ object_line wGrip (fullLink (gripper s0))
             ++ robot_line wOther (link og)
             ++ derivative_line wDer)%list
  end.
Proof.
  intros E. unfold makeTasks in E.
  destruct (all_enabled s) eqn:En;
    [|rewrite makeTasks_with_disabled in E by done; discriminate].
  rewrite makeTasks_with_dispatch in E by done.
  destruct (strategy_of s); [| | |done].
  - by apply (wp_run _ _ _ _ _ (_makeAbsolute_inputs rob wObj wGrip wDer s))
      in E.
  - pose proof (_makeRelativeTask_head _ _ _ _ _ _ _ _ E) as Hh.
    destruct (otherHandle s) as [oh|] eqn:Eoh; [|by destruct Hh].
    destruct Hh as [(_ & [=] & _)|[Hm Hg]].
    destruct (otherGripper s) as [og|] eqn:Eog; [|by destruct Hg].
    exists og, oh. destruct Hm as [Hr Hl].
    apply (wp_run _ _ _ _ _
      (_makeRelativeTask_inputs rob wObj wGrip wOther wDer s og oh
         Eog Eoh Hr Hl)) in E.
    by split_and!.
  - destruct (otherHandle s) as [oh|] eqn:Eoh; [|discriminate].
    destruct (resolve_roles_others oh s) as [Rg Rh].
    pose proof (_makeAbsoluteBasedOnOther_head _ _ _ _ _ _ _ _ E) as Hh.
    rewrite Eoh in Rh. rewrite Rh, Rg in Hh.
    destruct Hh as [(_ & [=] & _)|[Hm Hg]].
    destruct (otherGripper s) as [og|] eqn:Eog; [|by destruct Hg].
    exists og, oh. destruct Hm as [Hr Hl].
    apply (wp_run _ _ _ _ _
      (_makeAbsoluteBasedOnOther_inputs rob wObj wGrip wOther wDer _ og oh
         Rg Rh Hr Hl)) in E.
    by split_and!.
Qed.

(** X6. The pose inputs of the feature after a build.  [jaMfa] is
    [gripper.lMf].  A link of the robot ([_plugRobotLink]) feeds its input
    with the pose signal of the link on the robot entity, or, when its
    measurement flag is set, with the selector
    [<link>_measured_wrt_world_safe], whose measured side is registered with
    [addTfListenerTopic] (topic [<link>_measured], from the camera frame to
    the frame [<link>_measured]).  A link of the object ([_plugObjectLink])
    hands its input to [extendSignalGetters] for the topic of the link,
    which the builder registers with [addHppJointTopic]; or, when its flag
    is set, feeds it with the selector [<link>_measuredwrt_world], whose
    measured side is registered with [addTfListenerTopic] and whose [else_]
    input is registered with [addHppJointTopic] under the topic of the link.
    [_makeAbsolute] takes the gripper link as a robot link (flag
    [withMeasurementOfGripperPos]) and the handle link as an object link
    ([withMeasurementOfObjectPos]); [_makeRelativeTask] takes the links of
    the two grippers as robot links; [_makeAbsoluteBasedOnOther] takes the
    gripper link as an object link (under [withMeasurementOfGripperPos]) and
    the link of the other gripper as a robot link. *)
Theorem pose_inputs_of_the_feature rob wObj wGrip wOther wDer s s' F :
  makeTasks rob wObj wGrip wOther wDer s = (Ok tt, s') →
  feature (attrs s') = Some F →
  let g := gripper s' in
  let h := handle s' in
  (strategy_of s ≠ NoOp →
     wiring s' !! jaMfa F = Some (Constant (MatrixHomo (lMf g))))
  ∧ (strategy_of s = Absolute →
       robot_pose rob (link g) (oMja F) wGrip s'
       ∧ object_pose rob (fullLink h) (oMjb F) wObj s')
  ∧ (strategy_of s = Relative →
       ∀ og, otherGripper s' = Some og →
         robot_pose rob (link g) (oMja F) wGrip s'
         ∧ robot_pose rob (link og) (oMjb F) wOther s')
  ∧ (strategy_of s = AbsoluteBasedOnOther →
       ∀ og, otherGripper s' = Some og →
         object_pose rob (fullLink g) (oMja F) wGrip s'
         ∧ robot_pose rob (link og) (oMjb F) wOther s').
Proof.
  intros E HF g h. subst g h.
  pose proof (makeTasks_inputs _ _ _ _ _ _ _ E) as I.
  apply makeTasks_ok in E as [_ E].
  destruct (strategy_of s) eqn:Es.
  - destruct E as (((Eg & Eh & _) & (Hf & _) & _) & _).
    destruct I as (_ & Ja & Pa & Pb & _).
    rewrite Hf in HF. simplify_eq. rewrite Eg, Eh.
    split_and!; try done.
  - destruct E as (og & oh & Eog & Eoh & _
                   & ((Eg & Eh & Eog' & _) & (Hf & _) & _) & _).
    destruct I as (og' & oh' & ? & ? & _ & Ja & Pa & Pb & _).
    rewrite Hf in HF. simplify_eq. rewrite Eg, Eog'.
    split_and!; try done. intros _ og' Hog'. rewrite Eog in Hog'.
    by simplify_eq.
  - destruct E as (og & oh & Eog & Eoh & _
                   & ((Eg & Eh & Eog' & _) & (Hf & _) & _) & _).
    destruct I as (og' & oh' & ? & ? & _ & Ja & Pa & Pb & _).
    destruct (resolve_roles_others oh s) as [Rg _].
    rewrite Hf in HF. simplify_eq. rewrite Eg, Eog', Rg.
    split_and!; try done. intros _ og' Hog'. rewrite Eog in Hog'.
    by simplify_eq.
  - split_and!; done.
Qed.

(** ** A second build *)

(** X7. [makeTasks] cannot build the same task twice.  After a run that
    built a task and did not exchange gripper and handle, a second call on
    the same object fails in [assertEntityDoesNotExist] on the name of the
    feature, whatever the robot and the flags of the second call, and
    changes nothing. *)
Theorem makeTasks_cannot_build_twice
    rob wObj wGrip wOther wDer rob' wObj' wGrip' wOther' wDer' s s' :
  makeTasks rob wObj wGrip wOther wDer s = (Ok tt, s') →
  strategy_of s ≠ NoOp →
  gripper s' = gripper s → handle s' = handle s →
  ∃ F, feature (attrs s') = Some F ∧
    makeTasks rob' wObj' wGrip' wOther' wDer' s'
    = (Raise (EntityAlreadyExists F), s').
Proof.
  intros E Hs Eg Eh.
  pose proof (makeTasks_inputs _ _ _ _ _ _ _ E) as I.
  apply makeTasks_ok in E as [En E].
  assert (Fr : otherGripper s' = otherGripper s ∧ otherHandle s' = otherHandle s).
  { destruct (strategy_of s); [| | |done].
    - by destruct E as (((_ & _ & ? & ?) & _) & _).
    - by destruct E as (? & ? & _ & _ & _ & ((_ & _ & ? & ?) & _) & _).
    - destruct E as (? & oh & _ & _ & _ & ((_ & _ & -> & ->) & _) & _).
      apply resolve_roles_others. }
  destruct Fr as [Eog Eoh].
  assert (En' : all_enabled s' = true).
  { unfold all_enabled. by rewrite Eg, Eog. }
  assert (Es' : strategy_of s' = strategy_of s).
  { unfold strategy_of. by rewrite Eg, Eog. }
  unfold makeTasks. rewrite makeTasks_with_dispatch, Es' by done.
  destruct (strategy_of s); [| | |done].
  - destruct E as ((_ & (Hf & _) & _) & _). destruct I as (Hx & _).
    eexists; split; [exact Hf|].
    assert (Hn : absolute_name s' = absolute_name s).
    { unfold absolute_name. by rewrite Eg, Eh. }
    rewrite <- Hn in Hx |- *. by apply _makeAbsolute_taken.
  - destruct E as (og & oh & Hog & Hoh & Hm & (_ & (Hf & _) & _) & _).
    destruct I as (og' & oh' & ? & ? & Hx & _). simplify_eq.
    eexists; split; [exact Hf|].
    assert (Hn : relative_name s' og oh = relative_name s og oh).
    { unfold relative_name. by rewrite Eg, Eh. }
    rewrite <- Hn in Hx |- *. rewrite <- Eh in Hm.
    apply _makeRelativeTask_taken; congruence.
  - destruct E as (og & oh & Hog & Hoh & Hm & (Sf & (Hf & _) & _) & _).
    destruct I as (og' & oh' & ? & ? & Hx & _). simplify_eq.
    assert (Hsw : swap_needed (gripper s) (handle s) oh = false).
    { destruct (swap_needed (gripper s) (handle s) oh) eqn:Sw; [|done].
      destruct Sf as (Sg & _). unfold resolve_roles in Sg. rewrite Sw in Sg.
      cbn in Sg. unfold swap_needed in Sw. rewrite <- Sg, Eg in Sw.
      by destruct (bool_decide (robotName (gripper s) = robotName oh)). }
    unfold resolve_roles in *. rewrite Hsw in *.
    rewrite Eoh, Hoh. rewrite Eg, Eh, Hsw.
    eexists; split; [exact Hf|].
    assert (Hn : based_name s' og oh = based_name s og oh).
    { unfold based_name. by rewrite Eg, Eh. }
    rewrite <- Hn in Hx |- *. rewrite <- Eh in Hm.
    apply _makeAbsoluteBasedOnOther_taken; congruence.
Qed.

(** ** Exceptions of a fresh object *)

(** X8. On an object as [__init__] makes it, in any graph and for any
    arguments, a run of [makeTasks] that raises stops at a failed [assert],
    at a name that is already taken, or at the signal of the camera frame,
    and at the last only when neither the gripper nor the other gripper is
    measured.  So it never reads an attribute that was not assigned; the
    topic that [_plugObjectLink] and [_referenceSignal] extend has always
    been registered before they run; and every other signal of the robot
    entity is read after its operational point was created. *)
Theorem fresh_object_failures
    rob wObj wGrip wOther wDer g h other world e s' :
  makeTasks rob wObj wGrip wOther wDer (__init__ g h other world)
  = (Raise e, s') →
  e = AssertionError ∨ entity_exists e ∨ camera_unbound rob wGrip wOther e.
Proof.
  intros E.
  apply makeTasks_failure in E as [(_ & _ & [[-> _]|[_ Hp]])|(Hb & _)].
  - by left.
  - by destruct other.
  - by right.
Qed.

(** ** Diagnostics *)

(** X11. What a run that succeeds prints, after what was printed before:
    one line for each link that is plugged without measurement, by
    [_plugRobotLink] or [_plugObjectLink], in the order of the calls, and
    then the warning of the derivative flag if it is set.  The branch of
    [_makeAbsoluteBasedOnOther] prints the line of the swap first, when it
    swaps; the branch that builds nothing prints its one line. *)
Theorem diagnostics_of_a_run rob wObj wGrip wOther wDer s s' :
  makeTasks rob wObj wGrip wOther wDer s = (Ok tt, s') →
  let g := gripper s' in
  let h := handle s' in
  match strategy_of s with
  | Absolute =>
      stdout s'
      = (stdout s ++ robot_line wGrip (link g) ++ object_line wObj (fullLink h)
           ++ derivative_line wDer)%list
  | Relative =>
      ∃ og, otherGripper s' = Some og ∧
        stdout s'
        = (stdout s ++ robot_line wGrip (link g) ++ robot_line wOther (link og)
             ++ derivative_line wDer)%list
  | AbsoluteBasedOnOther =>
      ∃ og oh, otherGripper s' = Some og ∧ otherHandle s' = Some oh ∧
        stdout s'
        = (stdout s
             ++ (if swap_needed (gripper s) (handle s) oh
                 then ["swapping gripper " +:+ fullName (gripper s)
                       +:+ " and handle " +:+ fullName (handle s)]
                 else [])
             ++ object_line wGrip (fullLink g) ++ robot_line wOther (link og)
             ++ derivative_line wDer)%list
  | NoOp =>
      stdout s'
      = (stdout s ++ ["Both grippers are disabled so nothing can be done"])%list
  end.
Proof.
  intros E g h. subst g h.
  pose proof (makeTasks_inputs _ _ _ _ _ _ _ E) as I.
  apply makeTasks_ok in E as [_ E].
  destruct (strategy_of s).
  - destruct E as (((-> & -> & _) & _) & _). by destruct I as (_ & _ & _ & _ & ->).
  - destruct E as (og & oh & Eog & Eoh & _ & ((-> & _ & Eog' & _) & _) & _).
    destruct I as (og' & oh' & ? & ? & _ & _ & _ & _ & ->). simplify_eq.
    exists og. split; [congruence|done].
  - destruct E as (og & oh & Eog & Eoh & _
                   & ((-> & _ & Eog' & Eoh') & _) & _).
    destruct I as (og' & oh' & ? & ? & _ & _ & _ & _ & ->). simplify_eq.
    destruct (resolve_roles_others oh s) as [Rg Rh].
    exists og, oh. split_and!; [congruence..|].
    unfold resolve_roles, swapped.
    destruct (swap_needed _ _ _); cbn [stdout set_roles set_stdout gripper];
      by rewrite <- ?app_assoc.
  - by subst s'.
Qed.

(** ** A run that fails *)

(** X12. A run of [makeTasks] that raises, at any point, leaves the task
    list, [self.task] and [self.gain] of the object as they were: the task
    and its gain are created when nothing can fail any more, and
    [self.tasks] is assigned last. *)
Theorem failed_run_leaves_no_task rob wObj wGrip wOther wDer s e s' :
  makeTasks rob wObj wGrip wOther wDer s = (Raise e, s') →
  tasks s' = tasks s ∧ task (attrs s') = task (attrs s)
  ∧ gain (attrs s') = gain (attrs s).
Proof.
  intros E. unfold makeTasks in E.
  destruct (all_enabled s) eqn:En;
    [|rewrite makeTasks_with_disabled in E by done; by injection E as _ <-].
  rewrite makeTasks_with_dispatch in E by done.
  destruct (strategy_of s); [| | |discriminate].
  - by apply (wp_run _ _ _ _ _ (_makeAbsolute_inputs rob wObj wGrip wDer s))
      in E.
  - pose proof (_makeRelativeTask_head _ _ _ _ _ _ _ _ E) as Hh.
    destruct (otherHandle s) as [oh|] eqn:Eoh; [|by destruct Hh as [_ ->]].
    destruct Hh as [(_ & _ & ->)|[[Hr Hl] Hg]]; [done|].
    destruct (otherGripper s) as [og|] eqn:Eog; [|by destruct Hg as [_ ->]].
    by apply (wp_run _ _ _ _ _
      (_makeRelativeTask_inputs rob wObj wGrip wOther wDer s og oh
         Eog Eoh Hr Hl)) in E.
  - destruct (otherHandle s) as [oh|] eqn:Eoh; [|by injection E as _ <-].
    destruct (resolve_roles_others oh s) as [Rg Rh].
    assert (Hk : no_task_touched s (resolve_roles oh s)).
    { unfold resolve_roles. by destruct (swap_needed _ _ _). }
    destruct Hk as (Hk1 & Hk2 & Hk3). rewrite <- Hk1, <- Hk2, <- Hk3.
    pose proof (_makeAbsoluteBasedOnOther_head _ _ _ _ _ _ _ _ E) as Hh.
    rewrite Eoh in Rh. rewrite Rh, Rg in Hh.
    destruct Hh as [(_ & _ & ->)|[[Hr Hl] Hg]]; [done|].
    destruct (otherGripper s) as [og|] eqn:Eog; [|by destruct Hg as [_ ->]].
    by apply (wp_run _ _ _ _ _
      (_makeAbsoluteBasedOnOther_inputs rob wObj wGrip wOther wDer _ og oh
         Rg Rh Hr Hl)) in E.
Qed.

(** ** What a run never removes *)

(** [only_adds s s']: every entity of [s] still exists in [s']; every topic
    of [s] is still there with its handler and with its signals, in order,
    at the head of the list; the operational points, the calls made and the
    lines printed in [s] are still there; the other grasp is the same. *)
Definition only_adds (s s' : State) : Prop :=
  (∀ n, is_Some (entities s !! n) → is_Some (entities s' !! n))
  ∧ (∀ k tp, topics s !! k = Some tp →
       ∃ tp', topics s' !! k = Some tp' ∧ handler tp' = handler tp
              ∧ signalGetters tp `prefix_of` signalGetters tp')
  ∧ opPoints s ⊆ opPoints s'
  ∧ calls s `prefix_of` calls s'
  ∧ stdout s `prefix_of` stdout s'
  ∧ otherGripper s' = otherGripper s
  ∧ otherHandle s' = otherHandle s.

(** Every run of [m] only adds. *)
Definition grows {A} (m : M A) : Prop := ∀ s, only_adds s (m s).2.

Lemma only_adds_refl s : only_adds s s.
Proof. unfold only_adds. split_and!; eauto. Qed.

Lemma only_adds_trans s1 s2 s3 :
  only_adds s1 s2 → only_adds s2 s3 → only_adds s1 s3.
Proof.
  intros (E1 & T1 & O1 & C1 & P1 & G1 & H1) (E2 & T2 & O2 & C2 & P2 & G2 & H2).
  unfold only_adds. split_and!; try (etrans; eassumption); [by eauto|].
  intros k tp Hk. destruct (T1 k tp Hk) as (tp1 & Hk1 & Hh1 & Hp1).
  destruct (T2 k tp1 Hk1) as (tp2 & Hk2 & Hh2 & Hp2).
  exists tp2. split_and!; [done|congruence|by etrans].
Qed.

Lemma only_adds_topics (t : gmap string Topic) s :
  (∀ k tp, topics s !! k = Some tp →
     ∃ tp', t !! k = Some tp' ∧ handler tp' = handler tp
            ∧ signalGetters tp `prefix_of` signalGetters tp') →
  only_adds s (set_topics t s).
Proof. intros Ht. unfold only_adds. cbn. split_and!; eauto. Qed.

Lemma register_topic_only_adds k h g (t : gmap string Topic) k0 tp :
  t !! k0 = Some tp →
  ∃ tp', register_topic k h g t !! k0 = Some tp' ∧ handler tp' = handler tp
         ∧ signalGetters tp `prefix_of` signalGetters tp'.
Proof.
  intros Hk. unfold register_topic. destruct (decide (k = k0)) as [->|Hne].
  - rewrite Hk, lookup_insert_eq. eexists; split_and!; [done..|].
    cbn. by apply prefix_app_r.
  - destruct (t !! k); rewrite lookup_insert_ne by done; eauto.
Qed.

Lemma grows_ret {A} (a : A) : grows (mret a).
Proof. intros s. apply only_adds_refl. Qed.

Lemma grows_raise {A} e : grows (raise (A:=A) e).
Proof. intros s. apply only_adds_refl. Qed.

Lemma grows_gets {A} (f : State → A) : grows (gets f).
Proof. intros s. apply only_adds_refl. Qed.

Lemma grows_bind {A B} (m : M A) (k : A → M B) :
  grows m → (∀ a, grows (k a)) → grows (m ≫= k).
Proof.
  intros Hm Hk s. specialize (Hm s). unfold mbind, M_bind.
  destruct (m s) as [[a|e] s1]; [|exact Hm].
  eapply only_adds_trans; [exact Hm|apply Hk].
Qed.

Lemma grows_assert c : grows (assert c).
Proof. destruct c; intros s; apply only_adds_refl. Qed.

Lemma grows_print line : grows (print line).
Proof.
  intros s. unfold only_adds. cbn. split_and!; eauto. by apply prefix_app_r.
Qed.

Lemma grows_getattr attr proj : grows (getattr attr proj).
Proof.
  intros s. unfold getattr, mbind, M_bind, gets.
  destruct (proj (attrs s)); apply only_adds_refl.
Qed.

Lemma grows_setattr set e : grows (setattr set e).
Proof. intros s. unfold only_adds. cbn. split_and!; eauto. Qed.

Lemma grows_the_otherGripper : grows the_otherGripper.
Proof.
  intros s. unfold the_otherGripper, mbind, M_bind, gets.
  destruct (otherGripper s); apply only_adds_refl.
Qed.

Lemma grows_the_otherHandle : grows the_otherHandle.
Proof.
  intros s. unfold the_otherHandle, mbind, M_bind, gets.
  destruct (otherHandle s); apply only_adds_refl.
Qed.

Lemma grows_plug o i : grows (plug o i).
Proof. intros s. unfold only_adds. cbn. split_and!; eauto. Qed.

Lemma grows_set_value i v : grows (set_value i v).
Proof. intros s. unfold only_adds. cbn. split_and!; eauto. Qed.

Lemma grows_new_entity cls n : grows (new_entity cls n).
Proof.
  intros s. unfold only_adds. cbn. split_and!; eauto.
  intros k Hk. apply lookup_insert_is_Some'. by right.
Qed.

Lemma grows_call e c : grows (call e c).
Proof.
  intros s. unfold only_adds. cbn. split_and!; eauto. by apply prefix_app_r.
Qed.

Lemma grows_set_tasks t : grows (modify (set_tasks t)).
Proof. intros s. unfold only_adds. cbn. split_and!; eauto. Qed.

Lemma grows_set_roles g h : grows (modify (set_roles g h)).
Proof. intros s. unfold only_adds. cbn. split_and!; eauto. Qed.

Lemma grows_assertEntityDoesNotExist n : grows (assertEntityDoesNotExist n).
Proof.
  intros s. unfold assertEntityDoesNotExist, mbind, M_bind, gets.
  destruct (entities s !! n); apply only_adds_refl.
Qed.

Lemma grows__createOpPoint rob n : grows (_createOpPoint rob n).
Proof.
  intros s. unfold only_adds. cbn. split_and!; eauto. set_solver.
Qed.

Lemma grows_signal rob n : grows (signal rob n).
Proof.
  intros s. unfold signal, mbind, M_bind, gets.
  destruct (decide _); apply only_adds_refl.
Qed.

Lemma grows_register r : grows (register r).
Proof. intros s. unfold only_adds. cbn. split_and!; eauto. Qed.

Lemma grows_addHppJointTopic k g : grows (addHppJointTopic k g).
Proof.
  apply grows_bind; [apply grows_register|]. intros _ s.
  apply only_adds_topics. intros. by apply register_topic_only_adds.
Qed.

Lemma grows_addTfListenerTopic k f0 f1 g : grows (addTfListenerTopic k f0 f1 g).
Proof.
  apply grows_bind; [apply grows_register|]. intros _ s.
  apply only_adds_topics. intros. by apply register_topic_only_adds.
Qed.

Lemma grows_extendSignalGetters k x : grows (extendSignalGetters k x).
Proof.
  apply grows_bind; [apply grows_register|]. intros _ s.
  unfold mbind, M_bind, gets.
  destruct (topics s !! k) as [tp|] eqn:Hk; [|apply only_adds_refl].
  apply only_adds_topics. intros k0 tp0 Hk0.
  destruct (decide (k = k0)) as [->|Hne].
  - rewrite lookup_insert_eq. simplify_eq. eexists; split_and!; [done..|].
    cbn. by apply prefix_app_r.
  - rewrite lookup_insert_ne by done. eauto.
Qed.

Create HintDb grows.
#[local] Hint Resolve grows_ret grows_raise grows_gets grows_assert grows_print
  grows_getattr grows_setattr grows_the_otherGripper grows_the_otherHandle
  grows_plug grows_set_value grows_new_entity grows_call grows_set_tasks
  grows_set_roles grows_assertEntityDoesNotExist grows__createOpPoint
  grows_signal grows_register grows_addHppJointTopic grows_addTfListenerTopic grows_extendSignalGetters
  : grows.

(** A computation made of growing steps grows. *)
Ltac grows_run :=
  repeat (cbv beta iota zeta;
    lazymatch goal with
    | |- grows (_ ≫= _) => apply grows_bind; [|intros]
    | |- grows (if ?c then _ else _) => destruct c
    | |- grows (match ?x with _ => _ end) => destruct x
    | |- grows _ => solve [auto with grows]
    end).

Lemma grows_plugMatrixHomo f i : grows (plugMatrixHomo f i).
Proof. unfold plugMatrixHomo. grows_run. Qed.
#[local] Hint Resolve grows_plugMatrixHomo : grows.

Lemma grows_plug_factors e args : ∀ i, grows (plug_factors e i args).
Proof. induction args; intros i; cbn [plug_factors]; grows_run. Qed.
#[local] Hint Resolve grows_plug_factors : grows.

Lemma grows_matrixHomoInverse n f c : grows (matrixHomoInverse n f c).
Proof. unfold matrixHomoInverse. grows_run. Qed.

Lemma grows_matrixHomoProduct n args c : grows (matrixHomoProduct n args c).
Proof. unfold matrixHomoProduct. grows_run. Qed.

Lemma grows_entityIfMatrixHomo n cond t e c :
  grows (entityIfMatrixHomo n cond t e c).
Proof. unfold entityIfMatrixHomo. grows_run. Qed.
#[local] Hint Resolve grows_matrixHomoInverse grows_matrixHomoProduct
  grows_entityIfMatrixHomo : grows.

Lemma grows_makeTfListenerDefaultValue n v o :
  grows (makeTfListenerDefaultValue n v o).
Proof. unfold makeTfListenerDefaultValue. grows_run. Qed.

Lemma grows__plugRobotLink rob l p J w : grows (_plugRobotLink rob l p J w).
Proof. unfold _plugRobotLink. grows_run. Qed.

Lemma grows__plugObjectLink rob l o w : grows (_plugObjectLink rob l o w).
Proof. unfold _plugObjectLink. grows_run. Qed.
#[local] Hint Resolve grows_makeTfListenerDefaultValue grows__plugRobotLink
  grows__plugObjectLink : grows.

Lemma grows__referenceSignal N g h : grows (_referenceSignal N g h).
Proof.
  unfold _referenceSignal, self_oMjaDes_inv, self_faMfbDes. grows_run.
Qed.

Lemma grows__createTaskAndGain N : grows (_createTaskAndGain N).
Proof.
  unfold _createTaskAndGain, self_task, self_feature, self_gain. grows_run.
Qed.
#[local] Hint Resolve grows__referenceSignal grows__createTaskAndGain : grows.

Lemma grows__makeAbsolute rob wObj wGrip wDer :
  grows (_makeAbsolute rob wObj wGrip wDer).
Proof.
  unfold _makeAbsolute, self_task, self_feature, self_faMfbDes. grows_run.
Qed.

Lemma grows__makeRelativeTask rob wObj wGrip wOther wDer :
  grows (_makeRelativeTask rob wObj wGrip wOther wDer).
Proof.
  unfold _makeRelativeTask, self_task, self_feature, self_faMfbDes.
  grows_run.
Qed.

Lemma grows__makeAbsoluteBasedOnOther rob wObj wGrip wOther wDer :
  grows (_makeAbsoluteBasedOnOther rob wObj wGrip wOther wDer).
Proof.
  unfold _makeAbsoluteBasedOnOther, self_task, self_feature, self_faMfbDes,
    self_jbMfb.
  grows_run.
Qed.
#[local] Hint Resolve grows__makeAbsolute grows__makeRelativeTask
  grows__makeAbsoluteBasedOnOther : grows.

Lemma grows_makeTasks rob wObj wGrip wOther wDer :
  grows (makeTasks rob wObj wGrip wOther wDer).
Proof. unfold makeTasks, makeTasks_with. grows_run. Qed.

Lemma grows_addVisualServoingTrace tracer :
  grows (addVisualServoingTrace tracer).
Proof.
  unfold addVisualServoingTrace, addTrace, self_feature. grows_run.
Qed.

(** X10. Whatever its outcome, a run of [makeTasks] only adds to the object
    and to the graph: no entity, no topic, no signal of a topic, no
    operational point, no recorded call and no printed line is removed, a
    topic keeps its handler, and the other grasp is not touched.  The same
    holds for [addVisualServoingTrace]. *)
Theorem makeTasks_only_adds rob wObj wGrip wOther wDer tracer s :
  only_adds s (makeTasks rob wObj wGrip wOther wDer s).2
  ∧ only_adds s (addVisualServoingTrace tracer s).2.
Proof. split; [apply grows_makeTasks|apply grows_addVisualServoingTrace]. Qed.

(** ** A placement with no frame on the object *)

(** X14. In the branch of [_makeAbsoluteBasedOnOther], when neither the
    handle nor the gripper is on the robot of [otherHandle], nothing is
    swapped and [makeTasks] fails the first [assert] of the builder; the
    object and the graph are unchanged. *)
Theorem placement_needs_a_frame_on_the_object
    rob wObj wGrip wOther wDer s oh :
  all_enabled s = true →
  strategy_of s = AbsoluteBasedOnOther →
  otherHandle s = Some oh →
  robotName (handle s) ≠ robotName oh →
  robotName (gripper s) ≠ robotName oh →
  makeTasks rob wObj wGrip wOther wDer s = (Raise AssertionError, s).
Proof.
  intros En Es Eoh Hh Hg. unfold makeTasks.
  rewrite makeTasks_with_dispatch, Es, Eoh by done.
  unfold resolve_roles, swap_needed.
  rewrite (bool_decide_eq_false_2 _ Hg), andb_false_r.
  destruct (_makeAbsoluteBasedOnOther rob wObj wGrip wOther wDer s)
    as [r s'] eqn:E.
  apply _makeAbsoluteBasedOnOther_head in E. rewrite Eoh in E.
  destruct E as [(_ & -> & ->)|[[Hr _] _]]; done.
Qed.



End PreGrasp.


(** ** Concrete runs *)

(** Poses for the examples: the motions of the integer plane, [k] quarter
    turns followed by a translation.  They do not commute. *)
Definition turn (k : Z) (v : Z * Z) : Z * Z :=
  match (k mod 4)%Z with
  | 0%Z => v
  | 1%Z => (- v.2, v.1)%Z
  | 2%Z => (- v.1, - v.2)%Z
  | _ => (v.2, - v.1)%Z
  end.

#[global] Instance plane_motions : Pinocchio := {|
  SE3 := Z * (Z * Z);
  se3_inverse := λ '(k, v), ((- k) mod 4, turn (- k) (- v.1, - v.2))%Z;
  se3_mul := λ '(k, v) '(k', v'),
    ((k + k') mod 4, (v.1 + (turn k v').1, v.2 + (turn k v').2))%Z;
|}.

(** Names for the examples: the prefix and the arguments, joined by a
    separator. *)
#[global] Instance joined_names : Naming := {|
  _name := λ args, name_prefix +:+ "___" +:+ String.concat "___" args;
  filename_escape := λ n, n;
|}.

(** A robot, two of its grippers, two handles and the bottom of a box, and a
    pose on a table. *)
Definition talos : SotRobot :=
  {| dynamic := "talos_dynamic"; camera_frame := "rgbd_optical_frame";
     getDimension := 38 |}.

Definition left_gripper : OpFrame :=
  {| name := "left_gripper"; fullName := "talos/left_gripper";
     link := "gripper_left_base_link";
     fullLink := "talos/gripper_left_base_link"; robotName := "talos";
     lMf := (1, (0, 1))%Z; enabled := true; controllable := true |}.

Definition right_gripper : OpFrame :=
  {| name := "right_gripper"; fullName := "talos/right_gripper";
     link := "gripper_right_base_link";
     fullLink := "talos/gripper_right_base_link"; robotName := "talos";
     lMf := (0, (2, 0))%Z; enabled := true; controllable := true |}.

Definition box_handle : OpFrame :=
  {| name := "handle"; fullName := "box/handle"; link := "base_link";
     fullLink := "box/base_link"; robotName := "box";
     lMf := (1, (1, 0))%Z; enabled := true; controllable := false |}.

Definition box_handle2 : OpFrame :=
  {| name := "handle2"; fullName := "box/handle2"; link := "base_link";
     fullLink := "box/base_link"; robotName := "box";
     lMf := (3, (0, 1))%Z; enabled := true; controllable := false |}.

Definition table_pose : OpFrame :=
  {| name := "pose"; fullName := "table/pose"; link := "root_link";
     fullLink := "table/root_link"; robotName := "table";
     lMf := (0, (0, 0))%Z; enabled := true; controllable := false |}.

Definition box_bottom : OpFrame :=
  {| name := "bottom"; fullName := "box/bottom"; link := "base_link";
     fullLink := "box/base_link"; robotName := "box";
     lMf := (2, (0, -1))%Z; enabled := true; controllable := false |}.

(** A graph with no entity yet, and four objects created in it: a grasp, a
    second grasp of a box already held, and two placements of a box that
    is held (the second with gripper and handle given the other way
    round); and a pose that no robot can reach. *)
Definition empty_graph : State :=
  {| gripper := left_gripper; handle := box_handle; otherGripper := None;
     otherHandle := None; tasks := []; topics := ∅; attrs := no_attrs;
     entities := ∅; wiring := ∅; opPoints := ∅; calls := [];
     registrations := []; stdout := [] |}.

Definition grasp : State := __init__ left_gripper box_handle None empty_graph.
Definition regrasp : State :=
  __init__ left_gripper box_handle (Some (right_gripper, box_handle2)) empty_graph.
Definition placement : State :=
  __init__ table_pose box_bottom (Some (right_gripper, box_handle2)) empty_graph.

Definition placement_reversed : State :=
  __init__ box_bottom table_pose (Some (right_gripper, box_handle2)) empty_graph.

Definition out_of_reach : State :=
  __init__ table_pose box_bottom None empty_graph.

(** The graph left by the grasp, and a second object made of the same
    frames in it. *)
Definition rebuilt : State :=
  __init__ left_gripper box_handle None
    (makeTasks talos false false false false grasp).2.

(** A grasp whose gripper is disabled. *)
Definition disabled_grasp : State :=
  __init__
    {| name := "left_gripper"; fullName := "talos/left_gripper";
       link := "gripper_left_base_link";
       fullLink := "talos/gripper_left_base_link"; robotName := "talos";
       lMf := (1, (0, 1))%Z; enabled := false; controllable := true |}
    box_handle None empty_graph.

(** A regrasp whose other handle is not on the object of the handle. *)
Definition mismatched : State :=
  __init__ left_gripper box_handle (Some (right_gripper, table_pose)) empty_graph.

(** The graph left by the placement, the position of the table being
    measured, and a second placement made in it: of another handle of the
    box, held by the same other gripper. *)
Definition placed : State :=
  (makeTasks talos false true false false placement).2.

Definition second_placement : State :=
  __init__ table_pose box_handle (Some (right_gripper, box_handle2)) placed.

(** A run is its result and the state it leaves. *)
Lemma run_ok {A} (m : M A) (s : State) (a : A) :
  (m s).1 = Ok a → m s = (Ok a, (m s).2).
Proof. destruct (m s) as [r s']. cbn. by intros ->. Qed.

Lemma run_raise {A} (m : M A) (s : State) (e : Exception) :
  (m s).1 = Raise e → m s = (Raise e, (m s).2).
Proof. destruct (m s) as [r s']. cbn. by intros ->. Qed.

(** The regrasp, where both grippers are controllable, runs the Relative
    builder. *)

Lemma makeTasks_follows_decision_table_witness :
  makeTasks talos false true false false regrasp
  = _makeRelativeTask talos false true false false regrasp.
Proof.
  exact (makeTasks_follows_decision_table _makeAbsolute _makeRelativeTask
           _makeAbsoluteBasedOnOther talos false true false false regrasp
           eq_refl).
Defined.

(** The reversed placement: the roles are swapped, and the reference is
    wired for the frames as they are after the swap. *)
Lemma faMfbDes_is_the_four_factor_product_witness :
  let s' := (makeTasks talos true false true false placement_reversed).2 in
  gripper s' = table_pose ∧ handle s' = box_bottom
  ∧ ∃ N, reference_wired N (gripper s') (handle s') s'
         ∧ reference_registered N (gripper s') (handle s') s'.
Proof.
  split_and!; [by vm_compute..|].
  apply (faMfbDes_is_the_four_factor_product talos true false true false
           placement_reversed).
  - apply run_ok. by vm_compute.
  - by vm_compute.
Defined.

(** The grasp builds its task and its gain. *)
Lemma task_and_gain_construction_witness :
  ∃ N, task_and_gain N (makeTasks talos false false false false grasp).2.
Proof.
  apply (task_and_gain_construction talos false false false false grasp).
  - apply run_ok. by vm_compute.
  - by vm_compute.
Defined.

(** The reversed placement: the handle is on another robot than the other
    handle and the gripper is on the same one, so the roles are swapped. *)
Lemma roles_swapped_exactly_when_witness :
  makeTasks talos false false false false placement_reversed
  = _makeAbsoluteBasedOnOther talos false false false false
      (swapped placement_reversed).
Proof.
  exact (proj1
    (roles_swapped_exactly_when _makeAbsolute _makeRelativeTask
       _makeAbsoluteBasedOnOther talos false false false false
       placement_reversed box_handle2 eq_refl eq_refl) eq_refl).
Defined.

(** A pose that no robot can reach and no other gripper: nothing is built. *)
Lemma noop_builds_nothing_witness :
  makeTasks talos true true true true out_of_reach
  = (Ok tt, nothing_done out_of_reach)
  ∧ tasks (nothing_done out_of_reach) = []
  ∧ feature (attrs (nothing_done out_of_reach)) = None.
Proof.
  pose proof (noop_builds_nothing talos true true true true out_of_reach
                eq_refl eq_refl eq_refl) as (E & _ & _ & _ & _ & _ & _ & _ & _ & F).
  split; [exact E|].
  destruct (F table_pose box_bottom None empty_graph eq_refl) as (T & Fe & _).
  exact (conj T Fe).
Defined.

(** The regrasp with the derivative requested: the same build and a
    warning. *)
Lemma derivative_flag_only_warns_witness :
  makeTasks talos false true true true regrasp
  = (Ok tt, warned (makeTasks talos false true true false regrasp).2).
Proof.
  pose proof (derivative_flag_only_warns talos false true true regrasp) as W.
  rewrite (run_ok (makeTasks talos false true true false) regrasp tt) in W
    by (by vm_compute).
  apply W. by vm_compute.
Defined.

(** The placement: the grasp of the other gripper is measured, with the
    planned grasp as its default. *)
Lemma jbMfb_estimate_witness :
  ∃ N, feature (attrs (makeTasks talos false true false false placement).2)
       = Some (N +:+ "_feature")
     ∧ measured_grasp talos false N box_bottom right_gripper box_handle2
         (makeTasks talos false true false false placement).2.
Proof.
  exact (proj2
    (jbMfb_estimate talos false true false false placement
       (makeTasks talos false true false false placement).2
       right_gripper box_handle2
       (run_ok (makeTasks talos false true false false) placement tt eq_refl)
       eq_refl eq_refl) eq_refl).
Defined.

(** C3 fails in the AbsoluteBasedOnOther strategy: in this placement the
    feature's [jbMfb] is not the constant planned grasp, it is plugged to the
    output of a selector whose [then_] input is a product fed by the TF
    listener; with [withMeasurementOfOtherGripperPos] it is plugged to the
    output of a product. *)
Lemma jbMfb_is_measured_in_a_placement :
  (makeTasks talos false true false false placement).1 = Ok tt
  ∧ strategy_of placement = AbsoluteBasedOnOther
  ∧ otherGripper placement = Some right_gripper
  ∧ otherHandle placement = Some box_handle2
  ∧ feature (attrs (makeTasks talos false true false false placement).2)
    = Some "pregrasp___table/pose___box/bottom___based___right_gripper___box/handle2_feature"
  ∧ wiring (makeTasks talos false true false false placement).2
      !! jbMfb_ "pregrasp___table/pose___box/bottom___based___right_gripper___box/handle2_feature"
    = Some (Plugged (out "pregrasp___table/pose___box/bottom___based___right_gripper___box/handle2_jbMfb_cond"))
  ∧ wiring (makeTasks talos false true false false placement).2
      !! jbMfb_ "pregrasp___table/pose___box/bottom___based___right_gripper___box/handle2_feature"
    ≠ Some (Constant (MatrixHomo
              (static_grasp box_bottom right_gripper box_handle2)))
  ∧ entities (makeTasks talos false true false false placement).2
      !! "pregrasp___table/pose___box/bottom___based___right_gripper___box/handle2_jbMfb_cond"
    = Some IfMatrixHomo
  ∧ wiring (makeTasks talos false true false false placement).2
      !! then_ "pregrasp___table/pose___box/bottom___based___right_gripper___box/handle2_jbMfb_cond"
    = Some (Plugged (sout "pregrasp___table/pose___box/bottom___based___right_gripper___box/handle2_jbMfb_meas"))
  ∧ entities (makeTasks talos false true false false placement).2
      !! "pregrasp___table/pose___box/bottom___based___right_gripper___box/handle2_jbMfb_meas"
    = Some Multiply_of_matrixHomo
  ∧ entities (makeTasks talos false true false false placement).2
      !! "gripper_right_base_link_inv"
    = Some Inverse_of_matrixHomo
  ∧ (makeTasks talos false false true false placement).1 = Ok tt
  ∧ wiring (makeTasks talos false false true false placement).2
      !! jbMfb_ "pregrasp___table/pose___box/bottom___based___right_gripper___box/handle2_feature"
    = Some (Plugged (sout "pregrasp___table/pose___box/bottom___based___right_gripper___box/handle2_jbMfb")).
Proof. split_and!; by vm_compute. Qed.

(** The preconditions of the examples. *)
Lemma preconditions_rebuilt : preconditions rebuilt.
Proof. split_and!; by vm_compute. Qed.

Lemma preconditions_second_placement : preconditions second_placement.
Proof.
  split_and!; [by vm_compute..|].
  change (∀ oh, Some box_handle2 = Some oh →
            handles_match (handle (resolve_roles oh second_placement)) oh).
  intros oh [= <-]. split; by vm_compute.
Qed.

(** C6 fails as stated: the preconditions hold for the second placement,
    the name of its feature is free, and its [makeTasks] fails in
    [assertEntityDoesNotExist], inside the builder, on the name of the
    inverse of the pose of the other gripper, which the first placement
    created. *)
Lemma second_placement_fails_on_a_taken_name :
  (makeTasks talos false true false false placement).1 = Ok tt
  ∧ preconditions second_placement
  ∧ entities second_placement !! (stem second_placement +:+ "_feature") = None
  ∧ (makeTasks talos false true false false second_placement).1
    = Raise (EntityAlreadyExists "gripper_right_base_link_inv").
Proof.
  split_and!; [by vm_compute|exact preconditions_second_placement|
               by vm_compute..].
Qed.

(** The assertions at work: a disabled gripper stops [makeTasks] at its
    first [assert]; a regrasp whose other handle is on the table and not on
    the box stops at the first [assert] of the builder; the second object
    of [rebuilt], whose preconditions hold and whose feature exists, stops
    in [assertEntityDoesNotExist]. *)
Lemma makeTasks_assertions_witness :
  makeTasks talos false true false false disabled_grasp
  = (Raise AssertionError, disabled_grasp)
  ∧ makeTasks talos false true false false mismatched
    = (Raise AssertionError, mismatched)
  ∧ (makeTasks talos false true false false rebuilt).1
    = Raise (EntityAlreadyExists
               "pregrasp___left_gripper___box/handle_feature").
Proof.
  split_and!.
  - exact (proj1 (makeTasks_assertions talos false true false false
                    disabled_grasp) eq_refl).
  - apply (proj1 (proj1 (proj2 (proj2
             (makeTasks_assertions talos false true false false mismatched)))
             eq_refl table_pose eq_refl)).
    + by vm_compute.
    + intros [Hr _]. by vm_compute in Hr.
  - change "pregrasp___left_gripper___box/handle_feature"
      with (stem rebuilt +:+ "_feature").
    apply (proj2 (proj2 (proj2 (proj2
             (makeTasks_assertions talos false true false false rebuilt))))
             preconditions_rebuilt).
    + by vm_compute.
    + vm_compute. eauto.
Defined.

(** A placement given the other way round meets the preconditions, on the
    handle after the swap, and is built. *)
Lemma reversed_placement_is_built :
  preconditions placement_reversed
  ∧ robotName (handle placement_reversed) ≠ robotName box_handle2
  ∧ (makeTasks talos false true false false placement_reversed).1 = Ok tt.
Proof.
  split_and!; [split_and!; [by vm_compute..|]|by vm_compute..].
  change (∀ oh, Some box_handle2 = Some oh →
            handles_match (handle (resolve_roles oh placement_reversed)) oh).
  intros oh [= <-]. split; by vm_compute.
Qed.

Lemma second_placement_raises :
  (makeTasks talos false true false false second_placement).1
  = Raise (EntityAlreadyExists "gripper_right_base_link_inv").
Proof. by vm_compute. Qed.

(** After the branch that builds nothing, the trace interface fails; after
    the failed run of the second placement the task list is as it was. *)
Lemma feature_only_after_build_witness :
  addVisualServoingTrace "tracer" (nothing_done out_of_reach)
  = (Raise (AttributeError "feature"), nothing_done out_of_reach)
  ∧ tasks (makeTasks talos false true false false second_placement).2
    = tasks second_placement.
Proof.
  split.
  - exact (proj1 (proj2
      (feature_only_after_build talos false false false false "tracer"
         (nothing_done out_of_reach) (Ok tt) (nothing_done out_of_reach)))
      eq_refl).
  - apply (proj2 (proj2 (proj2 (proj2 (proj2
      (feature_only_after_build talos false true false false "tracer"
         second_placement
         (Raise (EntityAlreadyExists "gripper_right_base_link_inv"))
         (makeTasks talos false true false false second_placement).2)))
      (run_raise (makeTasks talos false true false false) second_placement
         _ second_placement_raises))) _ eq_refl).
Defined.

(** C10 fails as stated: the run of the second placement raises inside the
    builder, after [self.feature] was assigned; no task was built, the task
    list is empty, and [addVisualServoingTrace] returns. *)
Lemma trace_returns_after_a_failed_build :
  feature (attrs second_placement) = None
  ∧ (makeTasks talos false true false false second_placement).1
    = Raise (EntityAlreadyExists "gripper_right_base_link_inv")
  ∧ feature (attrs (makeTasks talos false true false false second_placement).2)
    = Some "pregrasp___table/pose___box/handle___based___right_gripper___box/handle2_feature"
  ∧ task (attrs (makeTasks talos false true false false second_placement).2)
    = None
  ∧ tasks (makeTasks talos false true false false second_placement).2 = []
  ∧ (addVisualServoingTrace "tracer"
       (makeTasks talos false true false false second_placement).2).1
    = Ok tt.
Proof. split_and!; by vm_compute. Qed.

(** C4 at a regrasp, where both grippers are controllable: [makeTasks] takes
    the Relative strategy and leaves both Jacobian inputs of the feature at
    the 6 x 38 zero matrix, assigned after each was plugged to the Jacobian
    of its link.  The Absolute strategy on the same gripper leaves [jaJja]
    plugged to the Jacobian of the gripper link. *)
Theorem relative_strategy_zeroes_both_jacobians :
  (makeTasks talos false false false false regrasp).1 = Ok tt
  ∧ strategy_of regrasp = Relative
  ∧ controllable left_gripper = true ∧ controllable right_gripper = true
  ∧ feature (attrs (makeTasks talos false false false false regrasp).2)
    = Some "pregrasp___left_gripper___box/handle___relative___right_gripper___box/handle2_feature"
  ∧ wiring (makeTasks talos false false false false regrasp).2
      !! jaJja "pregrasp___left_gripper___box/handle___relative___right_gripper___box/handle2_feature"
    = Some (Constant (Zeros 6 38))
  ∧ wiring (makeTasks talos false false false false regrasp).2
      !! jbJjb "pregrasp___left_gripper___box/handle___relative___right_gripper___box/handle2_feature"
    = Some (Constant (Zeros 6 38))
  ∧ wiring (makeTasks talos false false false false grasp).2
      !! jaJja "pregrasp___left_gripper___box/handle_feature"
    = Some (Plugged (dynamic_signal talos ("J" +:+ link left_gripper))).
Proof. split_and!; by vm_compute. Qed.

(** ** Concrete runs of the further properties *)

(** The runs used below. *)
Lemma grasp_runs :
  makeTasks talos false false false false grasp
  = (Ok tt, (makeTasks talos false false false false grasp).2).
Proof. apply run_ok. by vm_compute. Qed.

Lemma regrasp_runs :
  makeTasks talos false false false false regrasp
  = (Ok tt, (makeTasks talos false false false false regrasp).2).
Proof. apply run_ok. by vm_compute. Qed.

Lemma placement_reversed_runs :
  makeTasks talos false true false false placement_reversed
  = (Ok tt, (makeTasks talos false true false false placement_reversed).2).
Proof. apply run_ok. by vm_compute. Qed.

(** The regrasp does not read [withMeasurementOfObjectPos]. *)
Lemma object_measurement_flag_only_in_absolute_witness :
  makeTasks talos true false false false regrasp
  = makeTasks talos false false false false regrasp.
Proof.
  apply object_measurement_flag_only_in_absolute. by vm_compute.
Defined.

(** The grasp does not read [withMeasurementOfOtherGripperPos]. *)
Lemma other_gripper_measurement_flag_not_in_absolute_witness :
  makeTasks talos false false true false grasp
  = makeTasks talos false false false false grasp.
Proof.
  apply other_gripper_measurement_flag_not_in_absolute. left. by vm_compute.
Defined.

(** The reversed placement: the builder receives the box as the handle. *)
Lemma swap_puts_the_frame_of_the_object_as_handle_witness :
  ∃ s0,
    makeTasks talos false false false false placement_reversed
    = _makeAbsoluteBasedOnOther talos false false false false s0
    ∧ ((gripper s0 = box_bottom ∧ handle s0 = table_pose)
       ∨ (gripper s0 = table_pose ∧ handle s0 = box_bottom))
    ∧ (robotName (handle s0) = robotName box_handle2
       ↔ robotName table_pose = robotName box_handle2
         ∨ robotName box_bottom = robotName box_handle2)
    ∧ swap_needed (gripper s0) (handle s0) box_handle2 = false.
Proof.
  exact (swap_puts_the_frame_of_the_object_as_handle
           _makeAbsolute _makeRelativeTask _makeAbsoluteBasedOnOther
           talos false false false false placement_reversed box_handle2
           eq_refl eq_refl eq_refl).
Defined.

(** The names of the regrasp. *)
Lemma entities_are_named_after_the_frames_witness :
  let s' := (makeTasks talos false false false false regrasp).2 in
  ∃ og oh, otherGripper s' = Some og ∧ otherHandle s' = Some oh ∧
    named (_name [name (gripper s'); fullName (handle s'); "relative";
                  name og; fullName oh]) s'.
Proof.
  exact (entities_are_named_after_the_frames talos false false false false
           regrasp _ regrasp_runs).
Defined.

(** The Jacobian inputs of the grasp. *)
Lemma jacobians_of_the_absolute_builders_witness :
  let s' := (makeTasks talos false false false false grasp).2 in
  let F := "pregrasp___left_gripper___box/handle_feature" in
  wiring s' !! jaJja F
  = Some (Plugged (dynamic_signal talos ("J" +:+ link (gripper s'))))
  ∧ wiring s' !! jbJjb F = Some (Constant (Zeros 6 (getDimension talos))).
Proof.
  intros s' F.
  apply (proj1 (jacobians_of_the_absolute_builders talos false false false
                  false grasp s' F grasp_runs ltac:(by vm_compute))).
  by vm_compute.
Defined.

(** The pose inputs of the grasp, with the gripper measured. *)
Lemma pose_inputs_of_the_feature_witness :
  let s' := (makeTasks talos false true false false grasp).2 in
  let F := "pregrasp___left_gripper___box/handle_feature" in
  robot_pose talos (link (gripper s')) (oMja F) true s'
  ∧ object_pose talos (fullLink (handle s')) (oMjb F) false s'.
Proof.
  intros s' F.
  apply (proj1 (proj2 (pose_inputs_of_the_feature talos false true false
                         false grasp s' F
                         ltac:(apply run_ok; by vm_compute)
                         ltac:(by vm_compute)))).
  by vm_compute.
Defined.

(** The grasp cannot be built a second time. *)
Lemma makeTasks_cannot_build_twice_witness :
  let s' := (makeTasks talos false false false false grasp).2 in
  ∃ F, feature (attrs s') = Some F ∧
    makeTasks talos true true true true s'
    = (Raise (EntityAlreadyExists F), s').
Proof.
  apply (makeTasks_cannot_build_twice talos false false false false
           talos true true true true grasp _ grasp_runs);
    by vm_compute.
Defined.

(** The placement with nothing measured stops at the signal of the camera
    frame. *)
Lemma fresh_object_failures_witness :
  (makeTasks talos false false false false placement).1
  = Raise (UnboundFrameError "rgbd_optical_frame")
  ∧ (UnboundFrameError "rgbd_optical_frame" = AssertionError
     ∨ entity_exists (UnboundFrameError "rgbd_optical_frame")
     ∨ camera_unbound talos false false
         (UnboundFrameError "rgbd_optical_frame")).
Proof.
  split; [by vm_compute|].
  apply (fresh_object_failures talos false false false false
           table_pose box_bottom (Some (right_gripper, box_handle2))
           empty_graph _
           (makeTasks talos false false false false placement).2).
  apply (run_raise (makeTasks talos false false false false) placement).
  by vm_compute.
Defined.

(** What the reversed placement prints. *)
Lemma diagnostics_of_a_run_witness :
  let s := placement_reversed in
  let s' := (makeTasks talos false true false false s).2 in
  ∃ og oh, otherGripper s' = Some og ∧ otherHandle s' = Some oh ∧
    stdout s'
    = (stdout s
         ++ (if swap_needed (gripper s) (handle s) oh
             then ["swapping gripper " +:+ fullName (gripper s)
                   +:+ " and handle " +:+ fullName (handle s)]
             else [])
         ++ object_line true (fullLink (gripper s'))
         ++ robot_line false (link og)
         ++ derivative_line false)%list.
Proof.
  exact (diagnostics_of_a_run talos false true false false
           placement_reversed _ placement_reversed_runs).
Defined.

(** The second object of [rebuilt]: its failed run leaves it without task. *)
Lemma failed_run_leaves_no_task_witness :
  let s' := (makeTasks talos false false false false rebuilt).2 in
  tasks s' = tasks rebuilt ∧ task (attrs s') = task (attrs rebuilt)
  ∧ gain (attrs s') = gain (attrs rebuilt).
Proof.
  apply (failed_run_leaves_no_task talos false false false false rebuilt
           (EntityAlreadyExists "pregrasp___left_gripper___box/handle_feature")).
  apply run_raise. by vm_compute.
Defined.

(** A placement on the table of something that is on the table: no frame
    is on the robot of the other handle. *)
Definition misplaced : State :=
  __init__ table_pose table_pose (Some (right_gripper, box_handle2)) empty_graph.

Lemma placement_needs_a_frame_on_the_object_witness :
  makeTasks talos false false false false misplaced
  = (Raise AssertionError, misplaced).
Proof.
  apply (placement_needs_a_frame_on_the_object talos false false false false
           misplaced box_handle2); by vm_compute.
Defined.
